(** * The CV renderer of app.py: [clean_text_for_pdf] and [create_cv_pdf]

    A shallow embedding of the text processing done by [create_cv_pdf]
    (app.py, lines 142-236) and [clean_text_for_pdf] (lines 120-140).

    A Python [str] is a sequence of Unicode code points; it is modelled as
    a [list N].  The [str] methods the two functions call ([strip],
    [split], [replace], [startswith], slicing) are written out below with
    the behaviour CPython gives them.  The reportlab calls are modelled as
    data: a flowable is a constructor of [Flowable], and the layout engine
    ([SimpleDocTemplate.build] writing into the buffer) is a function taken
    as an argument, which either raises or returns the bytes of the
    buffer. *)

From Stdlib Require Import NArith ZArith List Bool Lia Ascii String.
From stdpp Require Import base list strings gmap.

Set Warnings "-register-all".
Local Open Scope N_scope.

(** ** Python strings *)

Abbreviation str := (list N).
Abbreviation bytes := (list Byte.byte).

(** [py "abc"] is the Python literal ['abc'] (code points of an ASCII
    literal). *)
Definition py (s : string) : str :=
  map (fun a => N_of_ascii a) (list_ascii_of_string s).

Definition nl : N := 10.

Module PyStr.

(** [str.isspace] on one code point: the code points CPython's
    [_PyUnicode_IsWhitespace] accepts. *)
Definition isspace (c : N) : bool :=
  ((9 <=? c) && (c <=? 13)) || ((28 <=? c) && (c <=? 32))
  || (c =? 133) || (c =? 160) || (c =? 5760)
  || ((8192 <=? c) && (c <=? 8202))
  || (c =? 8232) || (c =? 8233) || (c =? 8239) || (c =? 8287)
  || (c =? 12288).

Fixpoint lstrip (s : str) : str :=
  match s with
  | [] => []
  | c :: s' => if isspace c then lstrip s' else s
  end.

Definition rstrip (s : str) : str := rev (lstrip (rev s)).

(** [s.strip()] *)
Definition strip (s : str) : str := rstrip (lstrip s).

(** [s.startswith(prefix)] *)
Fixpoint startswith (s prefix : str) {struct prefix} : bool :=
  match prefix with
  | [] => true
  | p :: prefix' =>
      match s with
      | [] => false
      | c :: s' => (c =? p) && startswith s' prefix'
      end
  end.

(** [sub in s] *)
Fixpoint contains (s sub : str) {struct s} : bool :=
  startswith s sub ||
  match s with
  | [] => false
  | _ :: s' => contains s' sub
  end.

(** Truthiness of a string: [if s:]. *)
Definition truthy (s : str) : bool :=
  match s with [] => false | _ :: _ => true end.

Definition may_split (maxsplit : option nat) : bool :=
  match maxsplit with Some O => false | _ => true end.

(** The scan of [s.split(sep, maxsplit)] for a non-empty [sep]: left to
    right, cutting at every occurrence of [sep] that does not overlap
    the previous one, while [maxsplit] allows.  [skip] counts the
    characters of a matched separator that remain to be passed over.
    The head of the result is the fragment being read. *)
Fixpoint split_go (sep : str) (maxsplit : option nat) (skip : nat)
         (s : str) : list str :=
  match s with
  | [] => [[]]
  | c :: s' =>
      match skip with
      | S k => split_go sep maxsplit k s'
      | O =>
          if may_split maxsplit && startswith s sep
          then [] :: split_go sep (Nat.pred <$> maxsplit)
                              (length sep - 1) s'
          else match split_go sep maxsplit 0 s' with
               | h :: t => (c :: h) :: t
               | [] => [[c]]
               end
      end
  end.

(** [s.split(sep)]; every call site passes a non-empty literal [sep]
    (Python raises ValueError on an empty one). *)
Definition split (s sep : str) : list str := split_go sep None 0 s.

(** [s.split(sep, maxsplit)] *)
Definition split_max (s sep : str) (maxsplit : nat) : list str :=
  split_go sep (Some maxsplit) 0 s.

(** The scan of [s.replace(old, new)] for a non-empty [old]. *)
Fixpoint replace_go (old new : str) (skip : nat) (s : str) : str :=
  match s with
  | [] => []
  | c :: s' =>
      match skip with
      | S k => replace_go old new k s'
      | O =>
          if startswith s old
          then new ++ replace_go old new (length old - 1) s'
          else c :: replace_go old new 0 s'
      end
  end.

(** [s.replace(old, new)]; with an empty [old] Python puts [new] before
    every character and at the end. *)
Definition replace (s old new : str) : str :=
  match old with
  | [] => new ++ flat_map (fun c => c :: new) s
  | _ :: _ => replace_go old new 0 s
  end.

End PyStr.

Import PyStr.

(** ** [clean_text_for_pdf] (lines 120-140) *)

(** A dict display [{k1: v1, ...}] evaluates its items left to right; a key
    that is already present keeps its position and takes the new value.
    Iterating [.items()] then follows that order. *)
Fixpoint dict_set (d : list (str * str)) (k v : str) : list (str * str) :=
  match d with
  | [] => [(k, v)]
  | (k', v') :: d' =>
      if bool_decide (k' = k) then (k', v) :: d'
      else (k', v') :: dict_set d' k v
  end.

Definition dict_display (items : list (str * str)) : list (str * str) :=
  fold_left (fun d kv => dict_set d kv.1 kv.2) items [].

(** The keys of [replacements] as the file spells them once read as
    UTF-8.  The non-ASCII keys are three code points each: U+201A, U+00C4
    and a third one. *)
Definition key_bullet : str := [8218; 196; 162].   (* line 124 *)
Definition key_en_dash : str := [8218; 196; 236].  (* line 125 *)
Definition key_em_dash : str := [8218; 196; 238].  (* line 126 *)
Definition key_ellipsis : str := [8218; 196; 182]. (* line 131 *)

(** Lines 127 and 128 both read ['"': '"'].  On line 129 the three
    apostrophes open a triple-quoted string, which the three apostrophes
    of line 130 close: the key is the text between them (colon, space,
    double quote, apostrophe, double quote, comma, line break and the
    eight spaces of indentation) and its value is the ["'"] that follows
    on line 130. *)
Definition key_triple : str :=
  py ": " ++ [34; 39; 34] ++ py "," ++ [nl] ++ py "        ".

Definition replacements : list (str * str) :=
  dict_display
    [ (key_bullet, py "-");
      (key_en_dash, py "-");
      (key_em_dash, py "-");
      ([34], [34]);
      ([34], [34]);
      (key_triple, [39]);
      (key_ellipsis, py "...") ].

Definition clean_text_for_pdf (text : str) : str :=
  let text :=
    fold_left (fun text kv => replace text kv.1 kv.2) replacements text in
  List.filter (fun char => char <? 128) text.

(** ** [create_cv_pdf] (lines 142-236) *)

(** The three styles added to the sample style sheet (lines 159-176). *)
Inductive Style := CustomTitle | CustomHeading | CustomBody.

(** The reportlab flowables the function builds. *)
Inductive Flowable :=
| Paragraph (text : str) (style : Style)
| Spacer (width height : Z)
| ListFlowable (flowables : list Flowable) (bulletType : string)
               (start : str).

(** What the [try] block can raise: a missing key of [user_data], or
    whatever reportlab raises while it builds the document. *)
Inductive exn :=
| KeyError (key : string)
| LayoutError (reason : str).

(** [str(e)] *)
Definition str_of_exn (e : exn) : str :=
  match e with
  | KeyError key => py "'" ++ py key ++ py "'"
  | LayoutError reason => reason
  end.

Definition result (A : Type) : Type := exn + A.
Definition Ok {A : Type} (a : A) : result A := inr a.
Definition Raise {A : Type} (e : exn) : result A := inl e.

Definition bind {A B : Type} (m : result A) (k : A -> result B)
  : result B :=
  match m with
  | inl e => inl e
  | inr a => k a
  end.

Notation "'let?' x ':=' m 'in' k" := (bind m (fun x => k))
  (at level 10, x name, m at level 100, k at level 200).

(** [user_data[key]] *)
Definition getitem (user_data : gmap string str) (key : string)
  : result str :=
  match user_data !! key with
  | Some v => Ok v
  | None => Raise (KeyError key)
  end.

(** The bullet glyph of lines 210 and 216, as the file spells it. *)
Definition glyph : str := [8218; 196; 162].

(** The separator of line 190. *)
Definition heading_delimiter : str := nl :: py "## ".

(** Lines 208-221: one pass of the inner loop, appending to [story]. *)
Definition append_line (story : list Flowable) (line : str)
  : list Flowable :=
  let line := strip line in
  if truthy line then
    if startswith line (py "- ") || startswith line (glyph ++ py " ")
    then
      let text := strip (drop 2 line) in
      let bullet :=
        ListFlowable [Paragraph text CustomBody] "bullet" glyph in
      story ++ [bullet]
    else story ++ [Paragraph line CustomBody]
  else story.

(** Lines 193-223: one pass of the outer loop.  [split] with [maxsplit]
    1 returns one or two parts, so the unpacking of line 198 always finds
    exactly two when [len(parts) > 1]. *)
Definition append_section (story : list Flowable) (section : str)
  : list Flowable :=
  if truthy (strip section) then
    let parts := split_max (strip section) [nl] 1 in
    if bool_decide (1 < length parts)%nat then
      match parts with
      | [title; content] =>
          let title := strip (replace title (py "#") []) in
          let story := story ++ [Paragraph title CustomHeading] in
          let story :=
            fold_left append_line (split (strip content) [nl]) story in
          story ++ [Spacer 1 12]
      | _ => story
      end
    else story
  else story.

(** Lines 179-223: the list handed to [doc.build].  The flowables are
    data here: the constructor calls of lines 182-221 are not run, so the
    three keys are read without a constructor call between them.  In the
    source [Paragraph(user_data['name'], ...)] is built (line 182) before
    ['email'] and ['phone'] are read (line 184). *)
Definition build_story (user_data : gmap string str) (content : str)
  : result (list Flowable) :=
  let? name := getitem user_data "name" in
  let story := [Paragraph name CustomTitle] in
  let? email := getitem user_data "email" in
  let? phone := getitem user_data "phone" in
  let story :=
    story ++ [Paragraph (email ++ py " | " ++ phone) CustomBody] in
  let story := story ++ [Spacer 1 12] in
  let sections := split content heading_delimiter in
  Ok (fold_left append_section sections story).

(** The Streamlit page is a log of the messages passed to [st.error]. *)
Definition st_error (page : list str) (message : str) : list str :=
  page ++ [message].

(** [create_cv_pdf]: the value returned ([None] is Python's [None]) and
    the page afterwards.  [doc_build] stands for reportlab: given the
    story it raises or returns the bytes found in the buffer.  An
    exception raised by a flowable's constructor ends in the same handler
    as one raised by [doc.build], and is charged to [doc_build].  The
    value returned does not depend on which of the two raised.  The
    message does in one case only: when ['email'] or ['phone'] is missing
    and reportlab also rejects the title paragraph, the source reports
    the latter, which comes first, and the model the missing key; no
    statement below is about the message in that case. *)
Definition create_cv_pdf (doc_build : list Flowable -> result bytes)
           (user_data : gmap string str) (content : str)
           (page : list str) : option bytes * list str :=
  match (let? story := build_story user_data content in doc_build story)
  with
  | inr pdf_data => (Some pdf_data, page)
  | inl e =>
      (None, st_error page (py "PDF Generation Error: " ++ str_of_exn e))
  end.

(** The dict built by the caller (lines 389-396), restricted to the
    entries [create_cv_pdf] reads. *)
Definition header_record (name email phone : str) : gmap string str :=
  <["name" := name]> (<["email" := email]> (<["phone" := phone]> ∅)).

(** ** Derived views used in the statements *)

Definition line_flowables (line : str) : list Flowable :=
  append_line [] line.

Definition section_flowables (section : str) : list Flowable :=
  append_section [] section.

Definition header_block (name email phone : str) : list Flowable :=
  [ Paragraph name CustomTitle;
    Paragraph (email ++ py " | " ++ phone) CustomBody;
    Spacer 1 12 ].

(** What the body contributes to the story, after the header block. *)
Definition body_flowables (content : str) : list Flowable :=
  fold_left append_section (split content heading_delimiter) [].

(** The texts of the paragraphs of a flowable (the [start] glyph of a
    list is a constant of the program, not text of the body). *)
Fixpoint flowable_texts (f : Flowable) : list str :=
  match f with
  | Paragraph text _ => [text]
  | Spacer _ _ => []
  | ListFlowable fs _ _ => flat_map flowable_texts fs
  end.

Definition story_texts (story : list Flowable) : list str :=
  flat_map flowable_texts story.

(** A layout engine to run the model on: it writes the PDF magic bytes
    and then one byte per flowable. *)
Definition stub_build (story : list Flowable) : result bytes :=
  Ok ([Byte.x25; Byte.x50; Byte.x44; Byte.x46]
        ++ map (fun _ => Byte.x0a) story).

(** An engine that always raises, with a given reason. *)
Definition failing_build (reason : str) (story : list Flowable)
  : result bytes :=
  Raise (LayoutError reason).

(** Printable ASCII: space to tilde. *)
Definition printable_ascii (c : N) : Prop := 32 <= c <= 126.

(** ** Further views of the story *)

(** The dict the caller builds on lines 389-396. *)
Definition caller_user_data
           (name email phone experience education skills : str)
  : gmap string str :=
  <["name" := name]>
    (<["email" := email]>
       (<["phone" := phone]>
          (<["experience" := experience]>
             (<["education" := education]>
                (<["skills" := skills]> ∅))))).

(** A block of a section: a body paragraph (line 221) or a one-item
    bullet list (lines 213-217), in both cases with a text that is not
    empty and has no whitespace at either end. *)
Definition is_block (f : Flowable) : Prop :=
  exists text,
    text <> [] /\ strip text = text
    /\ (f = Paragraph text CustomBody
        \/ f = ListFlowable [Paragraph text CustomBody] "bullet" glyph).

(** A section as it lies in the story: heading, blocks, spacer. *)
Definition section_layout (title : str) (blocks : list Flowable)
  : list Flowable :=
  Paragraph title CustomHeading :: blocks ++ [Spacer 1 12].

(** ** [PDF.add_content] (lines 104-118) *)

(** The FPDF methods [add_content] calls on [self], with the arguments
    it passes. *)
Inductive FpdfCall :=
| Fpdf_set_font (family style : string) (size : Z)
| Fpdf_cell (w h : Z) (txt : str) (border ln : Z)
| Fpdf_multi_cell (w h : Z) (txt : str)
| Fpdf_ln (h : Z).

(** Lines 108-118: one pass of the loop; [pdf] is the list of calls made
    on the object so far. *)
Definition add_content_line (pdf : list FpdfCall) (line : str)
  : list FpdfCall :=
  let line := strip line in
  if truthy line then
    if startswith line (py "- ") || startswith line (glyph ++ py " ")
    then
      pdf ++ [ Fpdf_cell 5 5 glyph 0 0;
               Fpdf_multi_cell 0 5 (strip (drop 2 line));
               Fpdf_ln 2 ]
    else pdf ++ [ Fpdf_multi_cell 0 5 line; Fpdf_ln 2 ]
  else pdf.

Definition add_content (pdf : list FpdfCall) (text : str)
  : list FpdfCall :=
  let pdf := pdf ++ [Fpdf_set_font "Arial" "" 10] in
  let lines := split text [nl] in
  fold_left add_content_line lines pdf.

(** The texts passed to [multi_cell], in order. *)
Definition multi_cell_texts (pdf : list FpdfCall) : list str :=
  flat_map (fun call =>
              match call with
              | Fpdf_multi_cell _ _ txt => [txt]
              | _ => []
              end) pdf.

(** ** [CVGenerator.generate_cv] (lines 39-73) *)

(** What [self.model.generate_content(prompt)] and the read of
    [response.text] give: the text, or an exception with its [str]. *)
Inductive ApiReply :=
| ApiText (text : str)
| ApiRaises (reason : str).

(** The literal parts of the f-string of lines 41-67, in order. *)
Definition prompt_part_1 : str :=
  [nl]
  ++ py "            Create a professional CV in the following format:"
  ++ [nl]
  ++ [nl]
  ++ py "            # ".

Definition prompt_part_2 : str :=
  [nl]
  ++ py "            ".

Definition prompt_part_3 : str :=
  py " | ".

Definition prompt_part_4 : str :=
  [nl]
  ++ [nl]
  ++ py "            ## Professional Summary"
  ++ [nl]
  ++ py "            Create a brief professional summary highlighting key strengths and relevance for the ".

Definition prompt_part_5 : str :=
  py " position."
  ++ [nl]
  ++ [nl]
  ++ py "            ## Professional Experience"
  ++ [nl]
  ++ py "            ".

Definition prompt_part_6 : str :=
  [nl]
  ++ [nl]
  ++ py "            ## Education"
  ++ [nl]
  ++ py "            ".

Definition prompt_part_7 : str :=
  [nl]
  ++ [nl]
  ++ py "            ## Skills"
  ++ [nl]
  ++ py "            ".

Definition prompt_part_8 : str :=
  [nl]
  ++ [nl]
  ++ py "            Please ensure:"
  ++ [nl]
  ++ py "            1. Use clear markdown formatting"
  ++ [nl]
  ++ py "            2. Use bullet points (- ) for listing items"
  ++ [nl]
  ++ py "            3. Highlight key achievements and responsibilities"
  ++ [nl]
  ++ py "            4. Make content relevant to ".

Definition prompt_part_9 : str :=
  py " position"
  ++ [nl]
  ++ py "            5. Use professional language"
  ++ [nl]
  ++ py "            6. Include dates for experience and education"
  ++ [nl]
  ++ py "            7. Organize skills in categories if applicable"
  ++ [nl]
  ++ py "            ".

(** The f-string once its fields are known. *)
Definition cv_prompt
           (name email phone job_position experience education skills : str)
  : str :=
  prompt_part_1 ++ name ++ prompt_part_2 ++ email ++ prompt_part_3
  ++ phone ++ prompt_part_4 ++ job_position ++ prompt_part_5
  ++ experience ++ prompt_part_6 ++ education ++ prompt_part_7
  ++ skills ++ prompt_part_8 ++ job_position ++ prompt_part_9.

(** Lines 41-67: the fields are read from left to right. *)
Definition build_prompt (user_data : gmap string str) (job_position : str)
  : result str :=
  let? name := getitem user_data "name" in
  let? email := getitem user_data "email" in
  let? phone := getitem user_data "phone" in
  let? experience := getitem user_data "experience" in
  let? education := getitem user_data "education" in
  let? skills := getitem user_data "skills" in
  Ok (cv_prompt name email phone job_position experience education skills).

Definition generate_cv (generate_content : str -> ApiReply)
           (user_data : gmap string str) (job_position : str) : str :=
  match build_prompt user_data job_position with
  | inl e => py "Error generating CV: " ++ str_of_exn e
  | inr prompt =>
      match generate_content prompt with
      | ApiText text => text
      | ApiRaises reason => py "Error generating CV: " ++ reason
      end
  end.

(** ** [main] after the form is submitted (lines 383-464) *)

(** The data handed to a download button. *)
Inductive DownloadData :=
| PdfData (data : bytes)
| TextData (data : str).

(** The Streamlit calls of lines 383-464 that put something on the
    page, with their arguments. *)
Inductive UiCall :=
| Ui_error (body : str)
| Ui_success (body : str)
| Ui_warning (body : str)
| Ui_spinner (text : str)
| Ui_tabs (tabs : list str)
| Ui_markdown (body : str)
| Ui_columns (spec : Z)
| Ui_download_button (label : str) (data : DownloadData)
                     (file_name : str) (mime : str)
| Ui_button (label : str)
| Ui_code (body : str).

(** The texts of lines 385-464 that are not plain ASCII, as the file
    spells them once read as UTF-8. *)
Definition msg_fill_fields : str :=
  [8218; 246; 8224; 212; 8719; 232] ++ py " Please fill in all fields".
Definition msg_spinner : str :=
  [63743; 252; 238; 209] ++ py " Generating CV... This may take a moment.".
Definition msg_generated : str :=
  [8218; 250; 174] ++ py " CV Generated Successfully!".
Definition tab_preview : str := [63743; 252; 236; 209] ++ py " Preview".
Definition tab_download : str :=
  [8218; 168; 225; 212; 8719; 232] ++ py " Download".
Definition msg_error_occurred : str :=
  [8218; 249; 229] ++ py " An error occurred: ".
Definition label_copy : str :=
  [63743; 252; 236; 227] ++ py " Copy to Clipboard".
Definition label_markdown : str :=
  [63743; 252; 236; 209] ++ py " Download CV as Markdown".
Definition label_pdf : str :=
  [63743; 252; 236; 8226] ++ py " Download CV as PDF".

(** [f"cv_{name.lower().replace(' ', '_')}<extension>"]; [lower] stands
    for [str.lower]. *)
Definition download_name (lower : str -> str) (name extension : str)
  : str :=
  py "cv_" ++ replace (lower name) (py " ") (py "_") ++ extension.

(** The Markdown download button of lines 433-438 and 441-446. *)
Definition markdown_button (lower : str -> str) (name result : str)
  : UiCall :=
  Ui_download_button label_markdown (TextData result)
                     (download_name lower name (py ".md"))
                     (py "text/markdown").

(** Lines 383-464, given what the widgets returned ([copy_clicked] is
    the value of [st.button] on line 449).  The result lists the calls
    made on the page.  [connect api_key] stands for [CVGenerator(api_key)]:
    it raises, with the [str] of the exception, or gives the behaviour of
    the model's [generate_content].  The Streamlit calls themselves are
    taken not to raise, so nothing in the inner [try] block raises and
    the handler of lines 453-461 is not reached. *)
Definition main_on_submit
           (connect : str -> str + (str -> ApiReply))
           (doc_build : list Flowable -> result bytes)
           (lower : str -> str) (copy_clicked : bool)
           (api_key name email phone job_position
                    experience education skills : str)
  : list UiCall :=
  if negb (forallb truthy
             [name; email; phone; experience; education; skills;
              job_position])
  then [Ui_error msg_fill_fields]
  else
    let user_data :=
      caller_user_data name email phone experience education skills in
    let page := [Ui_spinner msg_spinner] in
    match connect api_key with
    | inl reason => page ++ [Ui_error (msg_error_occurred ++ reason)]
    | inr generate_content =>
        let result := generate_cv generate_content user_data job_position in
        if startswith result (py "Error")
        then page ++ [Ui_error result]
        else
          let page :=
            page ++ [ Ui_success msg_generated;
                      Ui_tabs [tab_preview; tab_download];
                      Ui_markdown result;
                      Ui_markdown (py "### Download Options") ] in
          let pdf := create_cv_pdf doc_build user_data result [] in
          let page := page ++ map Ui_error pdf.2 in
          let page :=
            match pdf.1 with
            | Some (b :: data) =>
                page ++ [ Ui_columns 2;
                          Ui_download_button
                            label_pdf (PdfData (b :: data))
                            (download_name lower name (py ".pdf"))
                            (py "application/pdf");
                          markdown_button lower name result ]
            | _ =>
                page ++ [ Ui_warning
                            (py "PDF generation failed. Download as Markdown instead.");
                          markdown_button lower name result ]
            end in
          let page := page ++ [Ui_button label_copy] in
          if copy_clicked
          then page ++ [ Ui_code result;
                         Ui_success (py "CV content copied to clipboard!") ]
          else page
    end.

(** The downloads offered on a page: data, file name and MIME type of
    its download buttons, in order. *)
Definition downloads (page : list UiCall)
  : list (DownloadData * str * str) :=
  flat_map (fun call =>
              match call with
              | Ui_download_button _ data file_name mime =>
                  [(data, file_name, mime)]
              | _ => []
              end) page.

(** [str.lower] on ASCII text, to run the model on. *)
Definition ascii_lower (s : str) : str :=
  map (fun c => if (65 <=? c) && (c <=? 90) then c + 32 else c) s.

(** A model that answers every prompt with the same text. *)
Definition constant_model (text : str) (api_key : str)
  : str + (str -> ApiReply) :=
  inr (fun prompt => ApiText text).

(** ** Running the model *)

Example strip_ex : strip (py "  a b ") = py "a b".
Proof. reflexivity. Qed.

Example split_ex :
  split (py "a,,b,") (py ",") = [py "a"; []; py "b"; []].
Proof. reflexivity. Qed.

Example split_overlap_ex :
  split (py "aXXXb") (py "XX") = [py "a"; py "Xb"].
Proof. reflexivity. Qed.

Example split_max_ex :
  split_max (py "a,b,c") (py ",") 1 = [py "a"; py "b,c"].
Proof. reflexivity. Qed.

Example replace_ex :
  replace (py "a--b---") (py "--") (py "+") = py "a+b+-".
Proof. reflexivity. Qed.

Example replace_empty_ex :
  replace (py "abc") [] (py "X") = py "XaXbXcX".
Proof. reflexivity. Qed.

Example replacements_items :
  replacements =
  [ (key_bullet, py "-"); (key_en_dash, py "-"); (key_em_dash, py "-");
    ([34], [34]); (key_triple, [39]); (key_ellipsis, py "...") ].
Proof. vm_compute. reflexivity. Qed.

(** The example of the specification: two sections, the first one read
    from the first fragment of the split. *)
Example spec_example :
  body_flowables
    (py "## Summary" ++ nl :: py "Builds things." ++ nl :: py "## Skills"
        ++ nl :: py "- Go" ++ nl :: py "- Testing" ++ [nl]) =
  [ Paragraph (py "Summary") CustomHeading;
    Paragraph (py "Builds things.") CustomBody;
    Spacer 1 12;
    Paragraph (py "Skills") CustomHeading;
    ListFlowable [Paragraph (py "Go") CustomBody] "bullet" glyph;
    ListFlowable [Paragraph (py "Testing") CustomBody] "bullet" glyph;
    Spacer 1 12 ].
Proof. vm_compute. reflexivity. Qed.

Example create_ex :
  create_cv_pdf stub_build
    (header_record (py "Jane Doe") (py "jane@x.com") (py "555-1234"))
    (py "hello") [] =
  (Some [Byte.x25; Byte.x50; Byte.x44; Byte.x46;
         Byte.x0a; Byte.x0a; Byte.x0a], []).
Proof. vm_compute. reflexivity. Qed.

(** ** The story as a concatenation *)

Lemma append_line_app story line :
  append_line story line = story ++ line_flowables line.
Proof.
  unfold line_flowables, append_line.
  destruct (truthy (strip line)); [|by rewrite app_nil_r].
  by destruct (_ || _).
Qed.

Lemma fold_append_line lines story :
  fold_left append_line lines story
  = story ++ flat_map line_flowables lines.
Proof.
  revert story. induction lines as [|l lines IH]; intros story; simpl.
  - by rewrite app_nil_r.
  - rewrite IH, append_line_app. by rewrite <- app_assoc.
Qed.

Lemma append_section_app story section :
  append_section story section = story ++ section_flowables section.
Proof.
  unfold section_flowables, append_section.
  destruct (truthy (strip section)); [|by rewrite app_nil_r].
  case_bool_decide; [|by rewrite app_nil_r].
  destruct (split_max _ _ _) as [|title [|content [|? ?]]];
    try by rewrite app_nil_r.
  rewrite !fold_append_line. simpl. by rewrite <- !app_assoc.
Qed.

Lemma fold_append_section sections story :
  fold_left append_section sections story
  = story ++ flat_map section_flowables sections.
Proof.
  revert story. induction sections as [|s sections IH]; intros story; simpl.
  - by rewrite app_nil_r.
  - rewrite IH, append_section_app. by rewrite <- app_assoc.
Qed.

Lemma body_flowables_eq content :
  body_flowables content
  = flat_map section_flowables (split content heading_delimiter).
Proof. unfold body_flowables. by rewrite fold_append_section. Qed.

Lemma build_story_header name email phone content :
  build_story (header_record name email phone) content
  = Ok (header_block name email phone ++ body_flowables content).
Proof.
  unfold build_story, header_record, getitem.
  rewrite lookup_insert_eq. simpl.
  rewrite lookup_insert_ne by done. rewrite lookup_insert_eq. simpl.
  do 2 rewrite lookup_insert_ne by done. rewrite lookup_insert_eq. simpl.
  rewrite fold_append_section. unfold body_flowables.
  rewrite fold_append_section. reflexivity.
Qed.

(** ** Facts about [startswith], [contains] and [split] *)

Lemma startswith_app s prefix :
  startswith s prefix = true <-> exists rest, s = prefix ++ rest.
Proof.
  revert s. induction prefix as [|p prefix IH]; intros s; simpl.
  - split; [eauto | done].
  - destruct s as [|c s].
    + split; [done | intros [? ?]; done].
    + rewrite andb_true_iff, N.eqb_eq, IH. split.
      * intros [-> [rest ->]]. eauto.
      * intros [rest [= -> ->]]. eauto.
Qed.

Lemma startswith_weaken s t prefix :
  startswith s prefix = true -> startswith (s ++ t) prefix = true.
Proof.
  rewrite !startswith_app. intros [rest ->].
  exists (rest ++ t). by rewrite app_assoc.
Qed.

Lemma contains_cons c s sub :
  contains (c :: s) sub = startswith (c :: s) sub || contains s sub.
Proof. reflexivity. Qed.

Lemma contains_nil sub : sub <> [] -> contains [] sub = false.
Proof. by destruct sub. Qed.

Lemma split_go_absent sep maxsplit s :
  contains s sep = false -> split_go sep maxsplit 0 s = [s].
Proof.
  induction s as [|c s IH]; [done|].
  rewrite contains_cons, orb_false_iff. intros [Hs Hc].
  cbn [split_go]. rewrite Hs, andb_false_r. by rewrite IH.
Qed.

Lemma split_go_spent sep s : split_go sep (Some O) 0 s = [s].
Proof.
  induction s as [|c s IH]; [done|].
  cbn [split_go may_split andb]. by rewrite IH.
Qed.

Lemma split_go_skip sep maxsplit pre rest :
  split_go sep maxsplit (length pre) (pre ++ rest)
  = split_go sep maxsplit 0 rest.
Proof. induction pre as [|c pre IH]; [done|]. simpl. apply IH. Qed.

(** With [maxsplit] 1 the cut is at the first occurrence of [sep]. *)
Lemma split_once_present sep s :
  sep <> [] -> contains s sep = true ->
  exists a b, s = a ++ sep ++ b /\ contains a sep = false
              /\ split_max s sep 1 = [a; b].
Proof.
  intros Hsep. unfold split_max. induction s as [|c s IH].
  - by rewrite contains_nil.
  - rewrite contains_cons. destruct (startswith (c :: s) sep) eqn:Hs.
    + intros _. apply startswith_app in Hs as [rest Hrest].
      exists [], rest. split; [done|]. split; [by apply contains_nil|].
      destruct sep as [|p sep]; [done|]. injection Hrest as -> ->.
      cbn [split_go may_split andb].
      assert (startswith (p :: sep ++ rest) (p :: sep) = true) as ->
        by (apply startswith_app; eauto).
      cbn [fmap option_fmap option_map Nat.pred length].
      replace (S (length sep) - 1)%nat with (length sep) by lia.
      rewrite split_go_skip, split_go_spent. done.
    + simpl. intros Hc. destruct (IH Hc) as (a & b & -> & Ha & Hsplit).
      exists (c :: a), b. split; [done|]. split.
      * rewrite contains_cons, Ha, orb_false_r.
        destruct (startswith (c :: a) sep) eqn:Hca; [|done].
        apply (startswith_weaken _ (sep ++ b)) in Hca.
        simpl in Hca. congruence.
      * cbn [split_go may_split andb]. by rewrite Hs, Hsplit.
Qed.

Lemma split_once_absent sep s :
  contains s sep = false -> split_max s sep 1 = [s].
Proof. apply split_go_absent. Qed.

Lemma split_cons sep maxsplit skip s :
  exists first rest, split_go sep maxsplit skip s = first :: rest.
Proof.
  revert maxsplit skip. induction s as [|c s IH]; intros m k; [by eexists _, _|].
  destruct k as [|k]; cbn [split_go]; [|apply IH].
  destruct (_ && _); [by eexists _, _|].
  destruct (IH m 0%nat) as (f & r & ->). by eexists _, _.
Qed.

(** ** What one fragment contributes *)

Lemma section_flowables_no_break section :
  contains (strip section) [nl] = false ->
  section_flowables section = [].
Proof.
  intros H. unfold section_flowables, append_section.
  destruct (truthy _); [|done].
  by rewrite split_once_absent.
Qed.

Lemma section_flowables_break section :
  contains (strip section) [nl] = true ->
  exists title content,
    strip section = title ++ [nl] ++ content
    /\ contains title [nl] = false
    /\ section_flowables section
       = Paragraph (strip (replace title (py "#") [])) CustomHeading
         :: flat_map line_flowables (split (strip content) [nl])
         ++ [Spacer 1 12].
Proof.
  intros H.
  destruct (split_once_present [nl] (strip section)) as (t & c & E & Ht & Hs);
    [done | done |].
  exists t, c. split; [done|]. split; [done|].
  unfold section_flowables, append_section. rewrite Hs.
  destruct (strip section) as [|x xs] eqn:Hstrip.
  { by destruct t. }
  cbn [truthy]. case_bool_decide; [|simpl in *; lia].
  rewrite fold_append_line. reflexivity.
Qed.

Lemma section_flowables_nil_iff section :
  section_flowables section = [] <-> contains (strip section) [nl] = false.
Proof.
  split; [|apply section_flowables_no_break].
  destruct (contains (strip section) [nl]) eqn:H; [|done].
  destruct (section_flowables_break _ H) as (? & ? & _ & _ & ->). done.
Qed.

Lemma create_cv_pdf_header doc_build name email phone content page :
  create_cv_pdf doc_build (header_record name email phone) content page
  = match doc_build (header_block name email phone
                       ++ body_flowables content) with
    | inr pdf_data => (Some pdf_data, page)
    | inl e =>
        (None,
         st_error page (py "PDF Generation Error: " ++ str_of_exn e))
    end.
Proof. unfold create_cv_pdf. by rewrite build_story_header. Qed.

(** ** Bodies without a heading delimiter *)

(** C1, as stated, fails: the body [hello] has no delimiter and
    contributes nothing at all to the story, and the three-line body
    [a/b/c] contributes a heading [a] and the paragraphs [b] and [c]; in
    neither case is the whole trimmed body the text of a paragraph. *)
Lemma no_delimiter_counterexample :
  (contains (py "hello") heading_delimiter = false
   /\ body_flowables (py "hello") = []
   /\ ~ In (strip (py "hello")) (story_texts (body_flowables (py "hello"))))
  /\ (contains (py "a" ++ nl :: py "b" ++ nl :: py "c") heading_delimiter
      = false
      /\ body_flowables (py "a" ++ nl :: py "b" ++ nl :: py "c")
         = [ Paragraph (py "a") CustomHeading;
             Paragraph (py "b") CustomBody;
             Paragraph (py "c") CustomBody;
             Spacer 1 12 ]
      /\ ~ In (strip (py "a" ++ nl :: py "b" ++ nl :: py "c"))
              (story_texts
                 (body_flowables (py "a" ++ nl :: py "b" ++ nl :: py "c")))).
Proof.
  repeat split; try (vm_compute; reflexivity).
  - vm_compute. tauto.
  - vm_compute. intros [H|[H|[H|[]]]]; discriminate H.
Qed.

(** C1, amended.  A body without a heading delimiter is a single
    fragment, handled like any other: the story is the header block
    followed by that fragment's flowables, which are none when the
    trimmed body has no line break, and otherwise a heading made of the
    first line, the flowables of the remaining lines and a spacer.  The
    call reports an error only if the layout engine raises on that
    story. *)
Theorem no_delimiter_one_fragment doc_build name email phone content page :
  contains content heading_delimiter = false ->
  build_story (header_record name email phone) content
  = Ok (header_block name email phone ++ section_flowables content)
  /\ (contains (strip content) [nl] = false ->
      section_flowables content = [])
  /\ (contains (strip content) [nl] = true ->
      exists title rest,
        strip content = title ++ [nl] ++ rest
        /\ contains title [nl] = false
        /\ section_flowables content
           = Paragraph (strip (replace title (py "#") [])) CustomHeading
             :: flat_map line_flowables (split (strip rest) [nl])
             ++ [Spacer 1 12])
  /\ create_cv_pdf doc_build (header_record name email phone) content page
     = match doc_build (header_block name email phone
                          ++ section_flowables content) with
       | inr pdf_data => (Some pdf_data, page)
       | inl e =>
           (None,
            st_error page (py "PDF Generation Error: " ++ str_of_exn e))
       end.
Proof.
  intros H.
  assert (body_flowables content = section_flowables content) as Hbody.
  { rewrite body_flowables_eq. unfold split.
    rewrite split_go_absent by done. simpl. apply app_nil_r. }
  split; [by rewrite build_story_header, Hbody|].
  split; [apply section_flowables_no_break|].
  split; [apply section_flowables_break|].
  by rewrite create_cv_pdf_header, Hbody.
Qed.

Lemma no_delimiter_one_fragment_witness :
  contains (py "Profile" ++ nl :: py "Builds things.") heading_delimiter
  = false
  /\ build_story (header_record (py "Jane") (py "j@x.com") (py "555"))
                 (py "Profile" ++ nl :: py "Builds things.")
     = Ok (header_block (py "Jane") (py "j@x.com") (py "555")
             ++ section_flowables
                  (py "Profile" ++ nl :: py "Builds things.")).
Proof.
  assert (contains (py "Profile" ++ nl :: py "Builds things.")
                   heading_delimiter = false) as H
    by (vm_compute; reflexivity).
  split; [exact H|].
  exact (proj1 (no_delimiter_one_fragment stub_build
                  (py "Jane") (py "j@x.com") (py "555")
                  (py "Profile" ++ nl :: py "Builds things.") [] H)).
Defined.

(** ** The first fragment *)

(** C3, as stated, fails: the text before the first heading delimiter is
    handled like every other fragment.  Here it holds two lines, and the
    story gets a heading and a paragraph from it. *)
Lemma first_fragment_counterexample :
  split (py "# Jane Doe" ++ nl :: py "jane@x.com | 555-1234" ++ nl
           :: nl :: py "## Summary" ++ nl :: py "Builds things.")
        heading_delimiter
  = [ py "# Jane Doe" ++ nl :: py "jane@x.com | 555-1234" ++ [nl];
      py "Summary" ++ nl :: py "Builds things." ]
  /\ body_flowables
       (py "# Jane Doe" ++ nl :: py "jane@x.com | 555-1234" ++ nl
          :: nl :: py "## Summary" ++ nl :: py "Builds things.")
     = [ Paragraph (py "Jane Doe") CustomHeading;
         Paragraph (py "jane@x.com | 555-1234") CustomBody;
         Spacer 1 12;
         Paragraph (py "Summary") CustomHeading;
         Paragraph (py "Builds things.") CustomBody;
         Spacer 1 12 ]
  /\ section_flowables
       (py "# Jane Doe" ++ nl :: py "jane@x.com | 555-1234" ++ [nl])
     <> [].
Proof. repeat split; try (vm_compute; reflexivity). vm_compute. discriminate. Qed.

(** C3, amended.  The split always has a first fragment, and the story
    is the header block followed by the flowables of every fragment in
    order, the first included; the first fragment contributes nothing
    exactly when its trimmed text has no line break. *)
Theorem first_fragment_is_processed name email phone content :
  exists first rest,
    split content heading_delimiter = first :: rest
    /\ build_story (header_record name email phone) content
       = Ok (header_block name email phone
               ++ section_flowables first
               ++ flat_map section_flowables rest)
    /\ (section_flowables first = []
        <-> contains (strip first) [nl] = false).
Proof.
  destruct (split_cons heading_delimiter None 0 content) as (f & r & E).
  exists f, r. split; [done|]. split.
  - rewrite build_story_header, body_flowables_eq. unfold split.
    by rewrite E.
  - apply section_flowables_nil_iff.
Qed.

(** ** Fragments of a single line *)

(** C10.  A fragment of the split whose trimmed text has no line break
    leaves the story as it was: no heading and no block is appended for
    it, and the story is the header block followed by what the other
    fragments contribute. *)
Theorem fragment_without_line_break_emits_nothing
        name email phone content before fragment after :
  split content heading_delimiter = before ++ fragment :: after ->
  contains (strip fragment) [nl] = false ->
  (forall story, append_section story fragment = story)
  /\ build_story (header_record name email phone) content
     = Ok (header_block name email phone
             ++ flat_map section_flowables before
             ++ flat_map section_flowables after).
Proof.
  intros Hsplit Hline.
  pose proof (section_flowables_no_break _ Hline) as Hnil.
  split.
  - intros story. rewrite append_section_app, Hnil. apply app_nil_r.
  - rewrite build_story_header, body_flowables_eq, Hsplit.
    rewrite flat_map_app. simpl. by rewrite Hnil.
Qed.

Lemma fragment_without_line_break_emits_nothing_witness :
  split (py "## Summary" ++ nl :: py "Builds things." ++ nl
           :: py "## Skills") heading_delimiter
  = [py "## Summary" ++ nl :: py "Builds things."] ++ py "Skills" :: []
  /\ contains (strip (py "Skills")) [nl] = false
  /\ build_story (header_record (py "Jane") (py "j@x.com") (py "555"))
                 (py "## Summary" ++ nl :: py "Builds things." ++ nl
                    :: py "## Skills")
     = Ok (header_block (py "Jane") (py "j@x.com") (py "555")
             ++ flat_map section_flowables
                  [py "## Summary" ++ nl :: py "Builds things."]
             ++ flat_map section_flowables []).
Proof.
  assert (split (py "## Summary" ++ nl :: py "Builds things." ++ nl
                   :: py "## Skills") heading_delimiter
          = [py "## Summary" ++ nl :: py "Builds things."]
              ++ py "Skills" :: []) as Hsplit
    by (vm_compute; reflexivity).
  assert (contains (strip (py "Skills")) [nl] = false) as Hline
    by (vm_compute; reflexivity).
  split; [exact Hsplit|]. split; [exact Hline|].
  exact (proj2 (fragment_without_line_break_emits_nothing
                  (py "Jane") (py "j@x.com") (py "555")
                  _ _ _ _ Hsplit Hline)).
Defined.

(** ** Lines: bullets and paragraphs *)

(** C5, as stated, fails in its second half: a line that does not begin
    with [- ] but with the glyph marker and a space is not emitted as a
    paragraph; it becomes a bullet item too, its text being the line
    without its first two code points. *)
Lemma bullet_or_paragraph_counterexample :
  truthy (strip (glyph ++ py " Go")) = true
  /\ startswith (strip (glyph ++ py " Go")) (py "- ") = false
  /\ line_flowables (glyph ++ py " Go")
     = [ListFlowable [Paragraph (162 :: py " Go") CustomBody]
                     "bullet" glyph]
  /\ line_flowables (glyph ++ py " Go")
     <> [Paragraph (strip (glyph ++ py " Go")) CustomBody].
Proof. repeat split; try (vm_compute; reflexivity). vm_compute. discriminate. Qed.

(** C5, amended.  For a line that is not blank: if the trimmed line
    begins with [- ], the block is a bullet item whose text is the
    trimmed line without its first two characters, trimmed again; if the
    trimmed line begins neither with [- ] nor with the glyph marker and
    a space, the block is a paragraph holding the trimmed line. *)
Theorem line_is_bullet_or_paragraph line :
  strip line <> [] ->
  (startswith (strip line) (py "- ") = true ->
   line_flowables line
   = [ListFlowable [Paragraph (strip (drop 2 (strip line))) CustomBody]
                   "bullet" glyph])
  /\ (startswith (strip line) (py "- ") = false ->
      startswith (strip line) (glyph ++ py " ") = false ->
      line_flowables line = [Paragraph (strip line) CustomBody]).
Proof.
  intros Hline. unfold line_flowables, append_line.
  destruct (strip line) as [|c l] eqn:E; [done|]. cbn [truthy].
  split.
  - by intros ->.
  - by intros -> ->.
Qed.

Lemma line_is_bullet_or_paragraph_witness :
  strip (py "  - Testing ") <> []
  /\ startswith (strip (py "  - Testing ")) (py "- ") = true
  /\ line_flowables (py "  - Testing ")
     = [ListFlowable
          [Paragraph (strip (drop 2 (strip (py "  - Testing "))))
                     CustomBody]
          "bullet" glyph].
Proof.
  assert (strip (py "  - Testing ") <> []) as H
    by (vm_compute; discriminate).
  assert (startswith (strip (py "  - Testing ")) (py "- ") = true) as Hb
    by (vm_compute; reflexivity).
  split; [exact H|]. split; [exact Hb|].
  exact (proj1 (line_is_bullet_or_paragraph (py "  - Testing ") H) Hb).
Defined.

(** ** Section titles *)

Lemma replace_char_empty s c :
  replace s [c] [] = List.filter (fun x => negb (x =? c)) s.
Proof.
  unfold replace. induction s as [|x s IH]; [done|].
  cbn [replace_go startswith List.filter length Nat.sub].
  rewrite andb_true_r. destruct (x =? c); simpl; by rewrite IH.
Qed.

(** C6, as stated, fails: the title loses every ['#'], also one inside
    the text.  The first line [C# Developer] gives the title
    [C Developer]. *)
Lemma title_interior_hash_counterexample :
  section_flowables (py "C# Developer" ++ nl :: py "Builds things.")
  = [ Paragraph (py "C Developer") CustomHeading;
      Paragraph (py "Builds things.") CustomBody;
      Spacer 1 12 ]
  /\ py "C Developer" <> py "C# Developer".
Proof. split; [vm_compute; reflexivity | vm_compute; discriminate]. Qed.

(** C6, amended.  For a fragment whose trimmed text has a line break,
    the first flowable is the heading, and its text is the first line of
    the trimmed fragment with every ['#'] removed, then trimmed; no ['#']
    is left in it. *)
Theorem title_drops_every_hash section :
  contains (strip section) [nl] = true ->
  exists first_line content,
    strip section = first_line ++ [nl] ++ content
    /\ contains first_line [nl] = false
    /\ head (section_flowables section)
       = Some (Paragraph
                 (strip (List.filter (fun c => negb (c =? 35)) first_line))
                 CustomHeading)
    /\ ~ In 35 (strip (List.filter (fun c => negb (c =? 35)) first_line)).
Proof.
  intros H.
  destruct (section_flowables_break _ H) as (t & c & E & Ht & Hs).
  exists t, c. split; [done|]. split; [done|]. split.
  - rewrite Hs. simpl. by rewrite <- replace_char_empty.
  - intros Hin.
    assert (forall s x, In x (lstrip s) -> In x s) as Hl.
    { intros s x. induction s as [|y s IH]; [done|]. simpl.
      destruct (isspace y); [right; by apply IH | done]. }
    unfold strip, rstrip in Hin.
    apply in_rev, Hl, in_rev, Hl in Hin.
    apply filter_In in Hin as [_ Hne]. by rewrite N.eqb_refl in Hne.
Qed.

Lemma title_drops_every_hash_witness :
  contains (strip (py "## C# and F#" ++ nl :: py "x")) [nl] = true
  /\ exists first_line content,
       strip (py "## C# and F#" ++ nl :: py "x")
       = first_line ++ [nl] ++ content
       /\ contains first_line [nl] = false
       /\ head (section_flowables (py "## C# and F#" ++ nl :: py "x"))
          = Some (Paragraph
                    (strip (List.filter (fun c => negb (c =? 35))
                                        first_line))
                    CustomHeading)
       /\ ~ In 35 (strip (List.filter (fun c => negb (c =? 35))
                                      first_line)).
Proof.
  assert (contains (strip (py "## C# and F#" ++ nl :: py "x")) [nl] = true)
    as H by (vm_compute; reflexivity).
  split; [exact H|].
  exact (title_drops_every_hash (py "## C# and F#" ++ nl :: py "x") H).
Defined.

Example title_ex :
  head (section_flowables (py "## C# and F#" ++ nl :: py "x"))
  = Some (Paragraph (py "C and F") CustomHeading).
Proof. vm_compute. reflexivity. Qed.

(** ** Properties of the characters kept by the string operations *)

Section Kept.
Variable P : N -> Prop.

Lemma Forall_lstrip s : Forall P s -> Forall P (lstrip s).
Proof.
  induction 1 as [|c s Hc Hs IH]; simpl; [done|].
  destruct (isspace c); [done | by constructor].
Qed.

Lemma Forall_strip s : Forall P s -> Forall P (strip s).
Proof.
  intros H. unfold strip, rstrip.
  by apply Forall_rev, Forall_lstrip, Forall_rev, Forall_lstrip.
Qed.

Lemma Forall_replace_go old new skip s :
  Forall P new -> Forall P s -> Forall P (replace_go old new skip s).
Proof.
  intros Hnew Hs. revert skip.
  induction Hs as [|c s Hc Hs IH]; intros skip; [done|].
  cbn [replace_go]. destruct skip as [|k]; [|apply IH].
  destruct (startswith _ _).
  - apply Forall_app. split; [done | apply IH].
  - constructor; [done | apply IH].
Qed.

Lemma Forall_replace s old new :
  Forall P new -> Forall P s -> Forall P (replace s old new).
Proof.
  intros Hnew Hs. destruct old as [|o old]; simpl.
  - apply Forall_app. split; [done|].
    induction Hs as [|c s Hc Hs IH]; simpl; [done|].
    constructor; [done|]. apply Forall_app. by split.
  - by apply Forall_replace_go.
Qed.

Lemma Forall_split_go sep maxsplit skip s :
  Forall P s -> Forall (Forall P) (split_go sep maxsplit skip s).
Proof.
  intros Hs. revert maxsplit skip.
  induction Hs as [|c s Hc Hs IH]; intros m k.
  - by repeat constructor.
  - cbn [split_go]. destruct k as [|k]; [|apply IH].
    destruct (_ && _).
    + constructor; [done | apply IH].
    + specialize (IH m 0%nat).
      destruct (split_go sep m 0 s) as [|h t].
      * by repeat constructor.
      * inversion IH; subst. by repeat constructor.
Qed.

Lemma Forall_line_texts line :
  Forall P line -> Forall (Forall P) (story_texts (line_flowables line)).
Proof.
  intros H. unfold line_flowables, append_line.
  pose proof (Forall_strip _ H) as Hs.
  destruct (truthy _); [|done].
  destruct (_ || _); simpl; repeat constructor; [|done].
  by apply Forall_strip, Forall_drop.
Qed.

Lemma Forall_flat_map_texts {A} (f : A -> list Flowable) (l : list A)
      (Q : A -> Prop) :
  (forall a, Q a -> Forall (Forall P) (story_texts (f a))) ->
  Forall Q l -> Forall (Forall P) (story_texts (flat_map f l)).
Proof.
  intros Hf. induction 1 as [|a l Ha Hl IH]; simpl; [done|].
  unfold story_texts in *. rewrite flat_map_app.
  apply Forall_app. split; [by apply Hf | done].
Qed.

Lemma Forall_section_texts section :
  Forall P section ->
  Forall (Forall P) (story_texts (section_flowables section)).
Proof.
  intros H. unfold section_flowables, append_section.
  destruct (truthy _); [|done].
  case_bool_decide; [|done].
  pose proof (Forall_split_go [nl] (Some 1%nat) 0 _ (Forall_strip _ H))
    as Hparts.
  unfold split_max.
  destruct (split_go _ _ _ _) as [|title [|content [|? ?]]]; try done.
  inversion Hparts as [|? ? Ht Hrest]; subst.
  inversion Hrest as [|? ? Hc _]; subst.
  rewrite fold_append_line.
  cbn [app story_texts flat_map flowable_texts].
  constructor.
  { by apply Forall_strip, Forall_replace. }
  unfold story_texts. rewrite flat_map_app. apply Forall_app.
  split; [|done].
  apply (Forall_flat_map_texts line_flowables _ (Forall P)).
  - apply Forall_line_texts.
  - by apply Forall_split_go, Forall_strip.
Qed.

Lemma Forall_body_texts content :
  Forall P content ->
  Forall (Forall P) (story_texts (body_flowables content)).
Proof.
  intros H. rewrite body_flowables_eq.
  apply (Forall_flat_map_texts section_flowables _ (Forall P)).
  - apply Forall_section_texts.
  - by apply Forall_split_go.
Qed.

End Kept.

(** ** Normalisation *)

Lemma clean_text_ascii text :
  Forall (fun c => c < 128) (clean_text_for_pdf text).
Proof.
  unfold clean_text_for_pdf. apply List.Forall_forall. intros c Hc.
  apply filter_In in Hc as [_ Hc]. by apply N.ltb_lt.
Qed.

Lemma replace_absent s old new c :
  In c old -> ~ In c s -> replace s old new = s.
Proof.
  intros Hold Hs. unfold replace.
  destruct old as [|o old]; [done|]. remember (o :: old) as key.
  induction s as [|x s IH]; [done|].
  cbn [replace_go].
  destruct (startswith (x :: s) key) eqn:E.
  - apply startswith_app in E as [rest E]. exfalso. apply Hs.
    rewrite E. apply in_or_app. by left.
  - rewrite IH; [done|]. intros Hin. apply Hs. by right.
Qed.

Lemma replace_char_same s c : replace s [c] [c] = s.
Proof.
  unfold replace. induction s as [|x s IH]; [done|].
  cbn [replace_go startswith length Nat.sub]. rewrite andb_true_r.
  destruct (x =? c) eqn:E; simpl; rewrite IH; [|done].
  apply N.eqb_eq in E. by subst.
Qed.

Lemma filter_ascii_id s :
  Forall (fun c => c < 128) s -> List.filter (fun c => c <? 128) s = s.
Proof.
  induction 1 as [|c s Hc Hs IH]; simpl; [done|].
  apply N.ltb_lt in Hc. by rewrite Hc, IH.
Qed.

(** On a string made of printable ASCII characters only, where no key of
    the table can occur, [clean_text_for_pdf] returns the string
    unchanged. *)
Theorem clean_text_identity_on_printable_ascii text :
  Forall printable_ascii text -> clean_text_for_pdf text = text.
Proof.
  intros H.
  assert (forall c, c < 32 \/ 126 < c -> ~ In c text) as Hout.
  { intros c Hc Hin. rewrite List.Forall_forall in H.
    specialize (H c Hin). unfold printable_ascii in H. lia. }
  unfold clean_text_for_pdf. rewrite replacements_items.
  cbn [fold_left fst snd].
  rewrite (replace_absent text key_bullet _ 8218);
    [| by left | apply Hout; lia].
  rewrite (replace_absent text key_en_dash _ 8218);
    [| by left | apply Hout; lia].
  rewrite (replace_absent text key_em_dash _ 8218);
    [| by left | apply Hout; lia].
  rewrite replace_char_same.
  rewrite (replace_absent text key_triple _ nl);
    [| vm_compute; tauto | apply Hout; unfold nl; lia].
  rewrite (replace_absent text key_ellipsis _ 8218);
    [| by left | apply Hout; lia].
  apply filter_ascii_id. eapply Forall_impl; [exact H|].
  unfold printable_ascii. intros c Hc. simpl in *. lia.
Qed.

Lemma clean_text_identity_on_printable_ascii_witness :
  Forall printable_ascii (py "- Go & C#, 10 yrs (2014-2024)")
  /\ clean_text_for_pdf (py "- Go & C#, 10 yrs (2014-2024)")
     = py "- Go & C#, 10 yrs (2014-2024)".
Proof.
  assert (Forall printable_ascii (py "- Go & C#, 10 yrs (2014-2024)")) as H.
  { vm_compute. repeat constructor; discriminate. }
  split; [exact H|].
  exact (clean_text_identity_on_printable_ascii _ H).
Defined.

(** C9: the code breaks the claim.  The two table entries of lines
    129-130, written to turn curly apostrophes into straight ones, read
    as one entry whose key is plain ASCII text with a line break in it.
    That text holds no smart punctuation and no character above 127, and
    it is not returned unchanged: it is rewritten to an apostrophe.  Nor
    is normalisation idempotent on its own output: the second text below
    is all ASCII, normalising it gives the key, and normalising the key
    gives the apostrophe. *)
Lemma clean_text_rewrites_ascii_text :
  Forall (fun c => c < 128) key_triple
  /\ clean_text_for_pdf key_triple = [39]
  /\ clean_text_for_pdf key_triple <> key_triple
  /\ Forall (fun c => c < 128)
            (py ": " ++ [34] ++ key_triple ++ [34] ++ py "," ++ [nl]
                ++ py "        ")
  /\ clean_text_for_pdf
       (clean_text_for_pdf
          (py ": " ++ [34] ++ key_triple ++ [34] ++ py "," ++ [nl]
              ++ py "        "))
     <> clean_text_for_pdf
          (py ": " ++ [34] ++ key_triple ++ [34] ++ py "," ++ [nl]
              ++ py "        ").
Proof.
  split; [vm_compute; repeat constructor|].
  split; [vm_compute; reflexivity|].
  split; [vm_compute; discriminate|].
  split; [vm_compute; repeat constructor|].
  vm_compute. discriminate.
Qed.

(** A line break is ASCII but not printable, and the hypothesis of the
    identity above cannot be relaxed to it: the key read from lines
    129-130 is plain ASCII and is rewritten to an apostrophe. *)
Example clean_text_triple_key :
  Forall (fun c => c < 128) key_triple
  /\ clean_text_for_pdf key_triple = [39]
  /\ clean_text_for_pdf
       (py ": " ++ [34] ++ key_triple ++ [34] ++ py "," ++ [nl]
           ++ py "        ")
     = key_triple.
Proof.
  split; [|split; vm_compute; reflexivity].
  vm_compute. repeat constructor.
Qed.

(** C2, as stated, fails: [create_cv_pdf] never calls
    [clean_text_for_pdf].  A body whose second line starts with the
    first key of the table is split as it is; the text of the bullet
    item keeps the code point 162, and the story differs from the one
    the normalised body gives. *)
Lemma normalisation_counterexample :
  body_flowables (py "Skills" ++ nl :: key_bullet ++ py " Go")
  = [ Paragraph (py "Skills") CustomHeading;
      ListFlowable [Paragraph (162 :: py " Go") CustomBody] "bullet" glyph;
      Spacer 1 12 ]
  /\ body_flowables
       (clean_text_for_pdf (py "Skills" ++ nl :: key_bullet ++ py " Go"))
     = [ Paragraph (py "Skills") CustomHeading;
         ListFlowable [Paragraph (py "Go") CustomBody] "bullet" glyph;
         Spacer 1 12 ]
  /\ ~ Forall (Forall (fun c => c < 128))
         (story_texts
            (body_flowables (py "Skills" ++ nl :: key_bullet ++ py " Go"))).
Proof.
  repeat split; try (vm_compute; reflexivity).
  intros H. vm_compute in H.
  inversion H as [|? ? _ H1]; subst.
  inversion H1 as [|? ? H2 _]; subst.
  inversion H2 as [|? ? H3 _]; subst.
  discriminate H3.
Qed.

(** C2, amended.  [clean_text_for_pdf] applies the table and then drops
    every character whose code point is 128 or more, so none is left in
    its result; [create_cv_pdf] does not normalise the body, and it is
    when the body it receives is the result of [clean_text_for_pdf] that
    no paragraph text of the sections has a code point of 128 or more. *)
Theorem normalised_body_has_ascii_texts text :
  clean_text_for_pdf text
  = List.filter (fun char => char <? 128)
      (fold_left (fun t kv => replace t kv.1 kv.2) replacements text)
  /\ Forall (fun c => c < 128) (clean_text_for_pdf text)
  /\ Forall (Forall (fun c => c < 128))
       (story_texts (body_flowables (clean_text_for_pdf text))).
Proof.
  split; [done|]. split; [apply clean_text_ascii|].
  apply Forall_body_texts, clean_text_ascii.
Qed.

(** ** Blank bodies *)

Lemma contains_app s sub :
  contains s sub = true -> exists a b, s = a ++ sub ++ b.
Proof.
  induction s as [|c s IH].
  - simpl. rewrite orb_false_r. intros H.
    apply startswith_app in H as [rest H]. exists [], rest. done.
  - rewrite contains_cons. intros [H|H]%orb_true_iff.
    + apply startswith_app in H as [rest H]. by exists [], rest.
    + destruct (IH H) as (a & b & ->). by exists (c :: a), b.
Qed.

Lemma lstrip_space s :
  Forall (fun c => isspace c = true) (lstrip s) ->
  Forall (fun c => isspace c = true) s.
Proof.
  induction s as [|c s IH]; simpl; [done|].
  destruct (isspace c) eqn:E; [|done].
  intros H. constructor; [done | by apply IH].
Qed.

Lemma strip_nil_space s :
  strip s = [] -> Forall (fun c => isspace c = true) s.
Proof.
  unfold strip, rstrip. intros H.
  apply lstrip_space.
  rewrite <- (rev_involutive (lstrip s)). apply Forall_rev.
  apply lstrip_space.
  rewrite <- (rev_involutive (lstrip (rev (lstrip s)))), H. done.
Qed.

Lemma blank_body_no_flowables content :
  strip content = [] -> body_flowables content = [].
Proof.
  intros H.
  assert (contains content heading_delimiter = false) as Hc.
  { destruct (contains content heading_delimiter) eqn:E; [|done].
    apply contains_app in E as (a & b & ->).
    apply strip_nil_space in H.
    rewrite List.Forall_forall in H.
    specialize (H 35). discriminate H.
    apply in_or_app. right. simpl. tauto. }
  rewrite body_flowables_eq. unfold split.
  rewrite split_go_absent by done. simpl. rewrite app_nil_r.
  unfold section_flowables, append_section. by rewrite H.
Qed.

(** C7, as stated, fails: success is not unconditional.  The body is
    empty and the story is the header block alone, but when the layout
    engine raises on that story, as reportlab does on a name with an
    unclosed tag, the call returns [None], with no artifact at all, and
    an error message goes to the page. *)
Lemma empty_body_counterexample :
  strip (@nil N) = []
  /\ build_story (header_record (py "<b>Jane") (py "j@x.com") (py "555")) []
     = Ok (header_block (py "<b>Jane") (py "j@x.com") (py "555"))
  /\ create_cv_pdf
       (failing_build (py "Parse error: saw </para> instead of expected </b>"))
       (header_record (py "<b>Jane") (py "j@x.com") (py "555")) [] []
     = (None,
        [py "PDF Generation Error: Parse error: saw </para> instead of expected </b>"]).
Proof. repeat split; vm_compute; reflexivity. Qed.

(** C7, amended.  When the body is empty after trimming, the story
    handed to the layout engine is the header block alone: the name as
    title, [email | phone] under it and a spacer, with no section.  The
    call returns the bytes the engine writes for that story, and leaves
    the page as it was, when the engine succeeds; when the engine raises
    on it, the call returns [None] and one error message goes to the
    page. *)
Theorem empty_body_story_is_header_block
        doc_build name email phone content page :
  strip content = [] ->
  build_story (header_record name email phone) content
  = Ok [ Paragraph name CustomTitle;
         Paragraph (email ++ py " | " ++ phone) CustomBody;
         Spacer 1 12 ]
  /\ body_flowables content = []
  /\ create_cv_pdf doc_build (header_record name email phone) content page
     = match doc_build [ Paragraph name CustomTitle;
                         Paragraph (email ++ py " | " ++ phone) CustomBody;
                         Spacer 1 12 ] with
       | inr pdf_data => (Some pdf_data, page)
       | inl e =>
           (None, page ++ [py "PDF Generation Error: " ++ str_of_exn e])
       end.
Proof.
  intros Hblank.
  pose proof (blank_body_no_flowables _ Hblank) as Hbody.
  split; [by rewrite build_story_header, Hbody|].
  split; [done|].
  by rewrite create_cv_pdf_header, Hbody, app_nil_r.
Qed.

Lemma empty_body_story_is_header_block_witness :
  strip (py "  " ++ nl :: py " ") = []
  /\ build_story
       (header_record (py "Jane Doe") (py "jane@x.com") (py "555-1234"))
       (py "  " ++ nl :: py " ")
     = Ok [ Paragraph (py "Jane Doe") CustomTitle;
            Paragraph (py "jane@x.com" ++ py " | " ++ py "555-1234")
                      CustomBody;
            Spacer 1 12 ].
Proof.
  assert (strip (py "  " ++ nl :: py " ") = []) as H
    by (vm_compute; reflexivity).
  split; [exact H|].
  exact (proj1 (empty_body_story_is_header_block stub_build
                  (py "Jane Doe") (py "jane@x.com") (py "555-1234")
                  (py "  " ++ nl :: py " ") [] H)).
Defined.

(** ** Failures *)

(** C4, as stated, fails in how a failure reaches the caller: the value
    returned is [None] whatever the reason, so it carries no reason
    string; the reason is written to the page with [st.error].  Two
    engines failing for different reasons give the same value. *)
Lemma failure_value_counterexample :
  (create_cv_pdf (failing_build (py "no font"))
     (header_record (py "Jane") (py "j@x.com") (py "555"))
     (py "hello") []).1 = None
  /\ (create_cv_pdf (failing_build (py "bad markup"))
        (header_record (py "Jane") (py "j@x.com") (py "555"))
        (py "hello") []).1 = None
  /\ py "no font" <> py "bad markup"
  /\ (create_cv_pdf (failing_build (py "no font"))
        (header_record (py "Jane") (py "j@x.com") (py "555"))
        (py "hello") []).2
     = [py "PDF Generation Error: no font"].
Proof. repeat split; try (vm_compute; reflexivity). vm_compute. discriminate. Qed.

(** C4, amended.  Whatever the [try] block raises is caught and nothing
    propagates.  When the block raises [e], the caller gets [None] and
    the page gets one [st.error] message, [PDF Generation Error: ]
    followed by [str(e)]; when it ends with the bytes of the buffer, the
    caller gets them and the page is left as it was.  With a header
    record the block raises exactly when the layout engine does. *)
Theorem failure_is_none_with_st_error
        doc_build user_data name email phone content page :
  match (let? story := build_story user_data content in doc_build story)
  with
  | inl e =>
      create_cv_pdf doc_build user_data content page
      = (None, page ++ [py "PDF Generation Error: " ++ str_of_exn e])
  | inr pdf_data =>
      create_cv_pdf doc_build user_data content page
      = (Some pdf_data, page)
  end
  /\ match doc_build (header_block name email phone
                        ++ body_flowables content) with
     | inl e =>
         create_cv_pdf doc_build (header_record name email phone)
                       content page
         = (None, page ++ [py "PDF Generation Error: " ++ str_of_exn e])
     | inr pdf_data =>
         create_cv_pdf doc_build (header_record name email phone)
                       content page
         = (Some pdf_data, page)
     end.
Proof.
  split.
  - unfold create_cv_pdf. by destruct (bind _ _).
  - rewrite create_cv_pdf_header. by destruct (doc_build _).
Qed.

(** A missing key of [user_data] is such a failure, whatever the layout
    engine would have done. *)
Example missing_name_key :
  create_cv_pdf stub_build ∅ (py "hello") []
  = (None, [py "PDF Generation Error: 'name'"]).
Proof. vm_compute. reflexivity. Qed.

(** ** Effects *)

(** C8, as stated, fails: the call is not free of UI interaction.  When
    the layout engine raises, or when a key of [user_data] is missing,
    the page it leaves differs from the page it found: [st.error] has
    been called. *)
Lemma side_effect_counterexample :
  create_cv_pdf (failing_build (py "no font"))
    (header_record (py "Jane") (py "j@x.com") (py "555"))
    (py "hello") []
  = (None, [py "PDF Generation Error: no font"])
  /\ (create_cv_pdf (failing_build (py "no font"))
        (header_record (py "Jane") (py "j@x.com") (py "555"))
        (py "hello") []).2 <> [].
Proof. split; [vm_compute; reflexivity | vm_compute; discriminate]. Qed.

(** C8, amended.  The value returned is a function of the header, the
    body and the outcome of the layout engine on the story: it does not
    depend on the page the call finds.  The only effect is on the page:
    it is left as it was when bytes are returned, and exactly one
    [st.error] message is appended to it when [None] is. *)
Theorem only_effect_is_st_error_on_failure
        doc_build user_data content page :
  (create_cv_pdf doc_build user_data content page).1
  = (create_cv_pdf doc_build user_data content []).1
  /\ (create_cv_pdf doc_build user_data content page).2
     = page ++ (create_cv_pdf doc_build user_data content []).2
  /\ match (create_cv_pdf doc_build user_data content page).1 with
     | Some _ => (create_cv_pdf doc_build user_data content page).2 = page
     | None =>
         exists e,
           (create_cv_pdf doc_build user_data content page).2
           = page ++ [py "PDF Generation Error: " ++ str_of_exn e]
     end.
Proof.
  unfold create_cv_pdf, st_error.
  repeat split.
  - by destruct (bind _ _).
  - destruct (bind _ _); simpl; [done | by rewrite app_nil_r].
  - destruct (bind _ _) as [e|pdf]; simpl; [by exists e | done].
Qed.

(** * Further properties of the code *)

(** ** Trimming *)

Lemma lstrip_head s c t : lstrip s = c :: t -> isspace c = false.
Proof.
  induction s as [|x s IH]; simpl; [done|].
  destruct (isspace x) eqn:E; [done|]. by intros [= <- _].
Qed.

Lemma lstrip_idem s : lstrip (lstrip s) = lstrip s.
Proof.
  destruct (lstrip s) as [|c t] eqn:E; [done|].
  apply lstrip_head in E. simpl. by rewrite E.
Qed.

Lemma lstrip_snoc s c :
  isspace c = false -> lstrip (s ++ [c]) = lstrip s ++ [c].
Proof.
  intros Hc. induction s as [|x s IH]; simpl; [by rewrite Hc|].
  by destruct (isspace x).
Qed.

Lemma rstrip_cons c t : isspace c = false -> rstrip (c :: t) = c :: rstrip t.
Proof.
  intros Hc. unfold rstrip. simpl.
  rewrite lstrip_snoc by done. rewrite rev_app_distr. done.
Qed.

Lemma rstrip_idem s : rstrip (rstrip s) = rstrip s.
Proof. unfold rstrip. by rewrite rev_involutive, lstrip_idem. Qed.

Lemma strip_idem s : strip (strip s) = strip s.
Proof.
  unfold strip. destruct (lstrip s) as [|c t] eqn:E; [done|].
  apply lstrip_head in E.
  rewrite (rstrip_cons c t E). simpl. rewrite E.
  rewrite <- (rstrip_cons c t E). apply rstrip_idem.
Qed.

Lemma strip_all_space s :
  Forall (fun c => isspace c = true) s -> strip s = [].
Proof.
  intros H. unfold strip.
  assert (lstrip s = []) as ->; [|done].
  induction H as [|c s Hc Hs IH]; simpl; [done|]. by rewrite Hc.
Qed.

Lemma strip_some_char s c : In c s -> isspace c = false -> strip s <> [].
Proof.
  intros Hin Hc Hnil. apply strip_nil_space in Hnil.
  rewrite List.Forall_forall in Hnil. specialize (Hnil c Hin). congruence.
Qed.

Lemma strip_last s t x : strip s = t ++ [x] -> isspace x = false.
Proof.
  unfold strip, rstrip. intros H.
  apply (f_equal (@rev N)) in H.
  rewrite rev_involutive, rev_app_distr in H. simpl in H.
  by apply lstrip_head in H.
Qed.

(** ** Lines *)

Lemma line_flowables_block line : Forall is_block (line_flowables line).
Proof.
  unfold line_flowables, append_line.
  destruct (strip line) as [|c l] eqn:E; [done|]. cbn [truthy].
  destruct (startswith (c :: l) (py "- ")) eqn:Hdash; cbn [orb].
  - (* a dash and a space: the rest holds the last character *)
    constructor; [|done].
    exists (strip (drop 2 (c :: l))). split; [|split; [apply strip_idem|by right]].
    apply startswith_app in Hdash as [rest Hrest].
    change (py "- " ++ rest) with (45 :: 32 :: rest) in Hrest.
    rewrite Hrest. cbn [drop].
    destruct (exists_last (l:=rest)) as (t & x & ->).
    { intros ->. rewrite Hrest in E.
      by apply (strip_last line [45] 32) in E. }
    apply (strip_some_char _ x); [apply in_or_app; right; by left|].
    rewrite Hrest in E.
    apply (strip_last line (45 :: 32 :: t) x). by rewrite E.
  - destruct (startswith (c :: l) (glyph ++ py " ")) eqn:Hglyph.
    + constructor; [|done].
      exists (strip (drop 2 (c :: l))).
      split; [|split; [apply strip_idem|by right]].
      apply startswith_app in Hglyph as [rest Hrest].
      change ((glyph ++ py " ") ++ rest)
        with (8218 :: 196 :: 162 :: 32 :: rest) in Hrest.
      rewrite Hrest. cbn [drop].
      apply (strip_some_char _ 162); [by left | done].
    + constructor; [|done].
      exists (c :: l). split; [done|]. split; [|by left].
      rewrite <- E. apply strip_idem.
Qed.

(** X1.  A line of a section gives at most one block.  It gives none
    exactly when it is blank, and the block it gives is a body paragraph
    or a one-item bullet list whose text is not empty and carries no
    whitespace at either end. *)
Theorem line_gives_at_most_one_block line :
  Forall is_block (line_flowables line)
  /\ (length (line_flowables line) <= 1)%nat
  /\ (line_flowables line = [] <-> strip line = []).
Proof.
  split; [apply line_flowables_block|].
  unfold line_flowables, append_line.
  destruct (strip line) as [|c l]; cbn [truthy].
  { split; [simpl; lia | done]. }
  destruct (_ || _); simpl; (split; [lia | by split]).
Qed.

(** ** Sections *)

Lemma section_flowables_layout section :
  section_flowables section = []
  \/ exists title blocks,
       section_flowables section = section_layout title blocks
       /\ strip title = title /\ Forall is_block blocks.
Proof.
  destruct (contains (strip section) [nl]) eqn:H.
  - right. destruct (section_flowables_break _ H) as (t & c & _ & _ & ->).
    eexists _, _. split; [reflexivity|]. split; [apply strip_idem|].
    induction (split (strip c) [nl]) as [|l ls IH]; simpl; [done|].
    apply Forall_app. split; [apply line_flowables_block | done].
  - left. by apply section_flowables_no_break.
Qed.

(** X2.  What the body adds to the story is a sequence of sections, each
    laid out as one heading paragraph, its blocks and one spacer; the
    heading text carries no whitespace at either end, every block is a
    body paragraph or a bullet item with a non-empty trimmed text, and
    there are at most as many sections as fragments of the split. *)
Theorem body_is_a_sequence_of_sections content :
  exists sections : list (str * list Flowable),
    body_flowables content
    = flat_map (fun s => section_layout s.1 s.2) sections
    /\ Forall (fun s => strip s.1 = s.1 /\ Forall is_block s.2) sections
    /\ (length sections <= length (split content heading_delimiter))%nat.
Proof.
  rewrite body_flowables_eq.
  induction (split content heading_delimiter) as [|f fs IH].
  - by exists [].
  - destruct IH as (secs & E & Hsecs & Hlen).
    destruct (section_flowables_layout f) as [Hf|(t & bl & Hf & Ht & Hbl)].
    + exists secs. simpl. rewrite Hf, E. split; [done|]. split; [done|lia].
    + exists ((t, bl) :: secs). simpl. rewrite Hf, E.
      split; [done|]. split; [by constructor | lia].
Qed.

(** ** The header keys *)

(** X3.  Only the entries [name], [email] and [phone] of [user_data] are
    read: two dicts that agree on these three keys give the same result,
    whatever else they hold. *)
Theorem only_three_keys_are_read
        doc_build (user_data user_data' : gmap string str) content page :
  user_data !! "name" = user_data' !! "name" ->
  user_data !! "email" = user_data' !! "email" ->
  user_data !! "phone" = user_data' !! "phone" ->
  create_cv_pdf doc_build user_data content page
  = create_cv_pdf doc_build user_data' content page.
Proof.
  intros Hn He Hp. unfold create_cv_pdf, build_story, getitem.
  by rewrite Hn, He, Hp.
Qed.

Lemma only_three_keys_are_read_witness :
  caller_user_data (py "Jane") (py "j@x.com") (py "555")
                   (py "ten years") (py "BSc") (py "Go") !! "name"
  = header_record (py "Jane") (py "j@x.com") (py "555") !! "name"
  /\ create_cv_pdf stub_build
       (caller_user_data (py "Jane") (py "j@x.com") (py "555")
                         (py "ten years") (py "BSc") (py "Go"))
       (py "hello") []
     = create_cv_pdf stub_build
         (header_record (py "Jane") (py "j@x.com") (py "555"))
         (py "hello") [].
Proof.
  split; [vm_compute; reflexivity|].
  apply only_three_keys_are_read; vm_compute; reflexivity.
Defined.

(** X4.  When one of the keys [name], [email], [phone] is missing from
    [user_data], the call returns [None] whatever the body and the
    layout engine, and the page receives exactly one message, which
    begins with [PDF Generation Error: ].  When the missing key is
    [name], which is read before anything is built, the message names
    it. *)
Theorem missing_key_returns_none
        doc_build (user_data : gmap string str) content page :
  user_data !! "name" = None \/ user_data !! "email" = None
  \/ user_data !! "phone" = None ->
  (create_cv_pdf doc_build user_data content page).1 = None
  /\ (exists reason,
        (create_cv_pdf doc_build user_data content page).2
        = page ++ [py "PDF Generation Error: " ++ reason])
  /\ (user_data !! "name" = None ->
      create_cv_pdf doc_build user_data content page
      = (None, page ++ [py "PDF Generation Error: 'name'"])).
Proof.
  intros H. unfold create_cv_pdf, build_story, getitem.
  destruct (user_data !! "name") as [n|] eqn:Hn.
  2:{ split; [done|]. split; [by eexists|done]. }
  destruct (user_data !! "email") as [e|] eqn:He.
  2:{ split; [done|]. split; [by eexists|done]. }
  destruct (user_data !! "phone") as [p|] eqn:Hp.
  2:{ split; [done|]. split; [by eexists|done]. }
  destruct H as [H|[H|H]]; done.
Qed.

Lemma missing_key_returns_none_witness :
  ((<["name" := py "Jane"]> (<["phone" := py "555"]> ∅)
      : gmap string str) !! "name" = None
   \/ (<["name" := py "Jane"]> (<["phone" := py "555"]> ∅)
         : gmap string str) !! "email" = None
   \/ (<["name" := py "Jane"]> (<["phone" := py "555"]> ∅)
         : gmap string str) !! "phone" = None)
  /\ (create_cv_pdf stub_build
        (<["name" := py "Jane"]> (<["phone" := py "555"]> ∅))
        (py "hello") []).1 = None.
Proof.
  assert ((<["name" := py "Jane"]> (<["phone" := py "555"]> ∅)
             : gmap string str) !! "name" = None
          \/ (<["name" := py "Jane"]> (<["phone" := py "555"]> ∅)
                : gmap string str) !! "email" = None
          \/ (<["name" := py "Jane"]> (<["phone" := py "555"]> ∅)
                : gmap string str) !! "phone" = None) as H
    by (right; left; vm_compute; reflexivity).
  split; [exact H|].
  exact (proj1 (missing_key_returns_none stub_build _ (py "hello") [] H)).
Defined.

(** ** Splitting at a heading delimiter *)

Lemma startswith_length s prefix :
  startswith s prefix = true -> (length prefix <= length s)%nat.
Proof.
  intros [rest ->]%startswith_app. rewrite length_app. lia.
Qed.

(** No occurrence of the delimiter can begin before one and end inside
    it: the delimiter starts with a line break and has no other. *)
Lemma delimiter_no_straddle x b :
  x <> [] ->
  startswith (x ++ heading_delimiter ++ b) heading_delimiter
  = startswith x heading_delimiter.
Proof.
  intros Hx. unfold heading_delimiter.
  destruct x as [|c1 [|c2 [|c3 [|c4 x]]]]; [done| | | |];
    cbn; rewrite ?andb_false_r; try done.
Qed.

Lemma split_go_app sep b :
  sep <> [] ->
  (forall x, x <> [] -> startswith (x ++ sep ++ b) sep = startswith x sep) ->
  forall a k, (k <= length a)%nat ->
    split_go sep None k (a ++ sep ++ b)
    = split_go sep None k a ++ split_go sep None 0 b.
Proof.
  intros Hsep Hns a. induction a as [|c a IH]; intros k Hk.
  - assert (k = 0)%nat as -> by (simpl in Hk; lia).
    destruct sep as [|p sep]; [done|].
    change ([] ++ (p :: sep) ++ b) with (p :: sep ++ b).
    cbn [split_go may_split andb].
    assert (startswith (p :: sep ++ b) (p :: sep) = true) as ->
      by (apply startswith_app; by exists b).
    cbn [fmap option_fmap option_map length].
    replace (S (length sep) - 1)%nat with (length sep) by lia.
    by rewrite split_go_skip.
  - destruct k as [|k].
    + change ((c :: a) ++ sep ++ b) with (c :: a ++ sep ++ b).
      cbn [split_go may_split andb].
      change (c :: a ++ sep ++ b) with ((c :: a) ++ sep ++ b).
      rewrite Hns by done.
      destruct (startswith (c :: a) sep) eqn:E.
      * cbn [fmap option_fmap option_map].
        apply startswith_length in E. simpl in E.
        rewrite IH by lia. done.
      * rewrite IH by lia.
        destruct (split_cons sep None 0 a) as (f & r & ->). done.
    + simpl in Hk. simpl. apply IH. lia.
Qed.

Lemma split_app_delimiter a b :
  split (a ++ heading_delimiter ++ b) heading_delimiter
  = split a heading_delimiter ++ split b heading_delimiter.
Proof.
  unfold split. apply split_go_app; [done | | lia].
  intros x Hx. by apply delimiter_no_straddle.
Qed.

(** X5.  Sections are independent of one another: the flowables of a
    body made of two texts joined by a heading delimiter are those of the
    first text followed by those of the second. *)
Theorem body_flowables_app_delimiter a b :
  body_flowables (a ++ heading_delimiter ++ b)
  = body_flowables a ++ body_flowables b.
Proof.
  rewrite !body_flowables_eq, split_app_delimiter. apply flat_map_app.
Qed.

(** ** A heading marker at the very start of a fragment *)

Lemma lstrip_app_keep u v : lstrip u <> [] -> lstrip (u ++ v) = lstrip u ++ v.
Proof.
  induction u as [|x u IH]; simpl; [done|].
  destruct (isspace x); [apply IH | done].
Qed.

Lemma rstrip_cons_keep x t : rstrip t <> [] -> rstrip (x :: t) = x :: rstrip t.
Proof.
  unfold rstrip. intros H. simpl.
  rewrite lstrip_app_keep.
  - by rewrite rev_app_distr.
  - intros E. rewrite E in H. done.
Qed.

Lemma split_once_at a b :
  ~ In nl a -> split_max (a ++ nl :: b) [nl] 1 = [a; b].
Proof.
  unfold split_max. induction a as [|c a IH]; intros Hin.
  - cbn. by rewrite split_go_spent.
  - change ((c :: a) ++ nl :: b) with (c :: a ++ nl :: b).
    cbn [split_go may_split andb startswith].
    destruct (c =? nl) eqn:E.
    { apply N.eqb_eq in E. exfalso. apply Hin. by left. }
    cbn [andb]. rewrite IH; [done|]. intros H. apply Hin. by right.
Qed.

Lemma contains_char s c : contains s [c] = true <-> In c s.
Proof.
  induction s as [|x s IH]; [by split|].
  rewrite contains_cons, orb_true_iff, IH. simpl.
  rewrite andb_true_r, N.eqb_eq. tauto.
Qed.

Lemma section_flowables_marker h :
  lstrip h = h ->
  section_flowables (py "## " ++ h) = section_flowables h.
Proof.
  intros Hh.
  destruct h as [|c h'] eqn:Eh; [by vm_compute|].
  assert (isspace c = false) as Hc by (by apply lstrip_head in Hh).
  rewrite <- Eh in *.
  assert (strip h <> []) as Hne.
  { apply (strip_some_char _ c); [rewrite Eh; by left | done]. }
  assert (strip h = rstrip h) as Hstrip by (unfold strip; by rewrite Hh).
  assert (strip (py "## " ++ h) = py "## " ++ strip h) as Hs.
  { unfold strip at 1.
    change (lstrip (py "## " ++ h)) with (35 :: 35 :: 32 :: h).
    rewrite !rstrip_cons by done.
    rewrite rstrip_cons_keep by (by rewrite <- Hstrip).
    by rewrite Hstrip. }
  destruct (contains (strip h) [nl]) eqn:Hnl.
  - destruct (section_flowables_break _ Hnl) as (t & r & E & Ht & ->).
    unfold section_flowables, append_section. rewrite Hs, E.
    change (py "## " ++ t ++ [nl] ++ r)
      with ((35 :: 35 :: 32 :: t) ++ nl :: r).
    assert (~ In nl (35 :: 35 :: 32 :: t)) as Hin.
    { intros [H|[H|[H|H]]]; try done.
      apply contains_char in H. congruence. }
    rewrite (split_once_at _ _ Hin). cbn [truthy app length].
    case_bool_decide; [|lia].
    rewrite fold_append_line. change (py "#") with [35].
    rewrite !replace_char_empty. reflexivity.
  - rewrite (section_flowables_no_break h Hnl).
    apply section_flowables_no_break. rewrite Hs.
    destruct (contains (py "## " ++ strip h) [nl]) eqn:E; [|done].
    apply contains_char in E. cbn in E.
    destruct E as [E|[E|[E|E]]]; try done.
    apply contains_char in E. congruence.
Qed.

Lemma split_go_push c s :
  c <> nl ->
  split (c :: s) heading_delimiter
  = match split s heading_delimiter with
    | h :: t => (c :: h) :: t
    | [] => [[c]]
    end.
Proof.
  intros Hc. unfold split, heading_delimiter.
  cbn [split_go may_split andb startswith].
  apply N.eqb_neq in Hc. by rewrite Hc.
Qed.

(** X6.  A heading marker opening the body does the work of a heading
    delimiter: when the text after it does not begin with whitespace,
    the body [## text] gives the same sections as [text] preceded by a
    line break and the marker. *)
Theorem leading_marker_opens_a_section s :
  lstrip s = s ->
  body_flowables (py "## " ++ s)
  = body_flowables (heading_delimiter ++ s).
Proof.
  intros Hs.
  rewrite !body_flowables_eq.
  change (heading_delimiter ++ s) with ([] ++ heading_delimiter ++ s).
  rewrite (split_app_delimiter [] s).
  change (split [] heading_delimiter) with [@nil N].
  cbn [app flat_map].
  change (section_flowables []) with (@nil Flowable). cbn [app].
  change (py "## " ++ s) with (35 :: 35 :: 32 :: s).
  rewrite !split_go_push by done.
  destruct (split_cons heading_delimiter None 0 s) as (h & t & E).
  unfold split in *. rewrite E. cbn [flat_map]. f_equal.
  apply (section_flowables_marker h).
  destruct s as [|c s']; [by injection E as <- _|].
  assert (isspace c = false) as Hc by (by apply lstrip_head in Hs).
  assert (c <> nl) as Hnl by (intros ->; done).
  pose proof (split_go_push c s' Hnl) as Hp. unfold split in Hp.
  rewrite E in Hp.
  destruct (split_go heading_delimiter None 0 s') as [|h0 t0];
    injection Hp as -> _; simpl; by rewrite Hc.
Qed.

Lemma leading_marker_opens_a_section_witness :
  lstrip (py "Summary" ++ nl :: py "Builds things.")
  = py "Summary" ++ nl :: py "Builds things."
  /\ body_flowables (py "## " ++ py "Summary" ++ nl :: py "Builds things.")
     = body_flowables
         (heading_delimiter ++ py "Summary" ++ nl :: py "Builds things.").
Proof.
  split; [vm_compute; reflexivity|].
  apply leading_marker_opens_a_section. vm_compute. reflexivity.
Defined.

(** ** More on normalisation *)

Lemma replace_go_length old new skip s :
  (length new <= length old)%nat ->
  (length (replace_go old new skip s) <= length s - skip)%nat.
Proof.
  intros Hlen. revert skip.
  induction s as [|c s IH]; intros k; [simpl; lia|].
  cbn [replace_go]. destruct k as [|k].
  - destruct (startswith (c :: s) old) eqn:E.
    + apply startswith_length in E.
      specialize (IH (length old - 1)%nat).
      rewrite length_app. simpl in *. lia.
    + specialize (IH 0%nat). simpl in *. lia.
  - specialize (IH k). simpl. lia.
Qed.

Lemma replace_length s old new :
  old <> [] -> (length new <= length old)%nat ->
  (length (replace s old new) <= length s)%nat.
Proof.
  intros Hold Hlen. destruct old as [|o old]; [done|]. unfold replace.
  pose proof (replace_go_length (o :: old) new 0 s Hlen). lia.
Qed.

(** X7.  Normalisation never makes a text longer: no value of the table
    is longer than its key, and the last step only drops characters. *)
Theorem clean_text_never_longer text :
  (length (clean_text_for_pdf text) <= length text)%nat.
Proof.
  unfold clean_text_for_pdf.
  etransitivity; [apply filter_length_le|].
  assert (Forall (fun kv : str * str =>
                    kv.1 <> [] /\ (length kv.2 <= length kv.1)%nat)
                 replacements) as Htable.
  { rewrite replacements_items. repeat constructor; simpl; (done || lia). }
  revert text. induction Htable as [|[k v] l [Hk Hv] _ IH]; intros text.
  - done.
  - cbn [fold_left fst snd]. etransitivity; [apply IH|].
    by apply replace_length.
Qed.

Lemma replace_no_occurrence s old new :
  contains s old = false -> replace s old new = s.
Proof.
  intros H. unfold replace.
  destruct old as [|o old]; [by destruct s|].
  induction s as [|c s IH]; [done|].
  rewrite contains_cons, orb_false_iff in H. destruct H as [Hs Hc].
  cbn [replace_go]. rewrite Hs. by rewrite IH.
Qed.

Lemma replacements_without_keys text :
  ~ In 8218 text -> contains text key_triple = false ->
  fold_left (fun t kv => replace t kv.1 kv.2) replacements text = text.
Proof.
  intros Hq Htriple. rewrite replacements_items. cbn [fold_left fst snd].
  rewrite (replace_absent text key_bullet _ 8218); [| by left | done].
  rewrite (replace_absent text key_en_dash _ 8218); [| by left | done].
  rewrite (replace_absent text key_em_dash _ 8218); [| by left | done].
  rewrite replace_char_same.
  rewrite (replace_no_occurrence text key_triple) by done.
  by rewrite (replace_absent text key_ellipsis _ 8218); [| by left | done].
Qed.

(** X8.  On a text that holds neither the code point U+201A, with which
    every non-ASCII key of the table begins, nor the key of lines
    129-130, the table does nothing and normalisation only deletes: the
    result is the text without its characters of code point 128 or more.
    A real dash, curly quote or bullet glyph is therefore dropped, not
    replaced. *)
Theorem clean_text_only_deletes text :
  ~ In 8218 text -> contains text key_triple = false ->
  clean_text_for_pdf text = List.filter (fun c => c <? 128) text.
Proof.
  intros Hq Htriple. unfold clean_text_for_pdf.
  by rewrite replacements_without_keys.
Qed.

Lemma clean_text_only_deletes_witness :
  ~ In 8218 (py "2019 " ++ 8212 :: py " 2024 " ++ 8220 :: py "Go" ++ [8221])
  /\ clean_text_for_pdf
       (py "2019 " ++ 8212 :: py " 2024 " ++ 8220 :: py "Go" ++ [8221])
     = List.filter (fun c => c <? 128)
         (py "2019 " ++ 8212 :: py " 2024 " ++ 8220 :: py "Go" ++ [8221]).
Proof.
  assert (~ In 8218
            (py "2019 " ++ 8212 :: py " 2024 " ++ 8220 :: py "Go" ++ [8221]))
    as H.
  { vm_compute. intros H. repeat (destruct H as [H|H]; [discriminate H|]).
    exact H. }
  split; [exact H|].
  apply (clean_text_only_deletes _ H). vm_compute. reflexivity.
Defined.

Example clean_text_real_punctuation :
  clean_text_for_pdf
    (py "2019 " ++ 8212 :: py " 2024 " ++ 8220 :: py "Go" ++ [8221])
  = py "2019  2024 Go".
Proof. vm_compute. reflexivity. Qed.

Lemma In_replace_go c old new skip s :
  In c (replace_go old new skip s) -> In c s \/ In c new.
Proof.
  revert skip. induction s as [|x s IH]; intros k; [done|].
  cbn [replace_go]. destruct k as [|k].
  - destruct (startswith (x :: s) old).
    + intros [H|H]%in_app_or; [by right|].
      destruct (IH _ H); [left; by right | by right].
    + intros [->|H]; [left; by left|].
      destruct (IH _ H); [left; by right | by right].
  - intros H. destruct (IH _ H); [left; by right | by right].
Qed.

Lemma In_replace c s old new :
  old <> [] -> In c (replace s old new) -> In c s \/ In c new.
Proof.
  intros Hold. destruct old as [|o old]; [done|]. apply In_replace_go.
Qed.

Lemma clean_text_keeps_no_line_break text :
  ~ In nl text -> ~ In nl (clean_text_for_pdf text).
Proof.
  intros Hnl. unfold clean_text_for_pdf. intros [H _]%filter_In.
  revert H. rewrite replacements_items. cbn [fold_left fst snd].
  intros H.
  repeat (apply In_replace in H; [|done];
          destruct H as [H|H];
          [|exfalso; vm_compute in H; clear -H; intuition discriminate]).
  done.
Qed.

(** X9.  On a text without line break, normalising twice gives what
    normalising once gives. *)
Theorem clean_text_idempotent_on_one_line text :
  ~ In nl text ->
  clean_text_for_pdf (clean_text_for_pdf text) = clean_text_for_pdf text.
Proof.
  intros Hnl.
  pose proof (clean_text_ascii text) as Hascii.
  pose proof (clean_text_keeps_no_line_break text Hnl) as Hnl'.
  remember (clean_text_for_pdf text) as t.
  unfold clean_text_for_pdf at 1.
  rewrite replacements_without_keys; [by apply filter_ascii_id | |].
  - intros Hq. rewrite List.Forall_forall in Hascii.
    specialize (Hascii _ Hq). simpl in Hascii. lia.
  - destruct (contains t key_triple) eqn:E; [|done].
    apply contains_app in E as (a & b & ->). exfalso. apply Hnl'.
    apply in_or_app. right. apply in_or_app. left. vm_compute. tauto.
Qed.

Lemma clean_text_idempotent_on_one_line_witness :
  ~ In nl (key_bullet ++ py " Go " ++ 8212 :: py " C#")
  /\ clean_text_for_pdf
       (clean_text_for_pdf (key_bullet ++ py " Go " ++ 8212 :: py " C#"))
     = clean_text_for_pdf (key_bullet ++ py " Go " ++ 8212 :: py " C#").
Proof.
  assert (~ In nl (key_bullet ++ py " Go " ++ 8212 :: py " C#")) as H.
  { vm_compute. intros H. repeat (destruct H as [H|H]; [discriminate H|]).
    exact H. }
  split; [exact H|]. exact (clean_text_idempotent_on_one_line _ H).
Defined.

(** X19.  Normalisation returns a text unchanged when all its
    characters are below 128 and the text of the key read from lines
    129-130 does not occur in it; line breaks elsewhere do no harm. *)
Theorem clean_text_identity_on_ascii_without_key text :
  Forall (fun c => c < 128) text ->
  contains text key_triple = false ->
  clean_text_for_pdf text = text.
Proof.
  intros Hascii Hkey. unfold clean_text_for_pdf.
  rewrite replacements_without_keys; [by apply filter_ascii_id | | done].
  intros Hq. rewrite List.Forall_forall in Hascii.
  specialize (Hascii _ Hq). simpl in Hascii. lia.
Qed.

Lemma clean_text_identity_on_ascii_without_key_witness :
  Forall (fun c => c < 128)
         (py "## Skills" ++ nl :: py "- Go: 'fast'" ++ [nl; 9]
             ++ py "- C#")
  /\ clean_text_for_pdf
       (py "## Skills" ++ nl :: py "- Go: 'fast'" ++ [nl; 9] ++ py "- C#")
     = py "## Skills" ++ nl :: py "- Go: 'fast'" ++ [nl; 9] ++ py "- C#".
Proof.
  assert (Forall (fun c => c < 128)
                 (py "## Skills" ++ nl :: py "- Go: 'fast'" ++ [nl; 9]
                     ++ py "- C#")) as H
    by (vm_compute; repeat constructor).
  split; [exact H|].
  apply (clean_text_identity_on_ascii_without_key _ H).
  vm_compute. reflexivity.
Defined.

(** X10.  A line that opens with the glyph marker is cut after two code
    points, while the marker has three before its space: the bullet text
    keeps the third code point of the glyph (162) in front. *)
Theorem glyph_bullet_keeps_glyph_tail line :
  startswith (strip line) (glyph ++ py " ") = true ->
  exists rest,
    strip line = glyph ++ 32 :: rest
    /\ line_flowables line
       = [ListFlowable [Paragraph (162 :: rstrip (32 :: rest)) CustomBody]
                       "bullet" glyph].
Proof.
  intros H. pose proof H as [rest Hrest]%startswith_app.
  change ((glyph ++ py " ") ++ rest) with (glyph ++ 32 :: rest) in Hrest.
  exists rest. split; [done|].
  unfold line_flowables, append_line. rewrite H, orb_true_r.
  rewrite Hrest. cbn [truthy app glyph drop].
  unfold strip. change (lstrip (162 :: 32 :: rest)) with (162 :: 32 :: rest).
  by rewrite rstrip_cons.
Qed.

Lemma glyph_bullet_keeps_glyph_tail_witness :
  startswith (strip (glyph ++ py " Go ")) (glyph ++ py " ") = true
  /\ exists rest,
       strip (glyph ++ py " Go ") = glyph ++ 32 :: rest
       /\ line_flowables (glyph ++ py " Go ")
          = [ListFlowable
               [Paragraph (162 :: rstrip (32 :: rest)) CustomBody]
               "bullet" glyph].
Proof.
  split; [vm_compute; reflexivity|].
  apply glyph_bullet_keeps_glyph_tail. vm_compute. reflexivity.
Defined.

(** ** The FPDF renderer *)

Lemma add_content_line_app pdf line :
  add_content_line pdf line = pdf ++ add_content_line [] line.
Proof.
  unfold add_content_line.
  destruct (truthy (strip line)); [|by rewrite app_nil_r].
  by destruct (_ || _).
Qed.

Lemma fold_add_content_line lines pdf :
  fold_left add_content_line lines pdf
  = pdf ++ flat_map (add_content_line []) lines.
Proof.
  revert pdf. induction lines as [|l lines IH]; intros pdf; simpl.
  - by rewrite app_nil_r.
  - rewrite IH, add_content_line_app. by rewrite <- app_assoc.
Qed.

Lemma add_content_line_texts line :
  multi_cell_texts (add_content_line [] line)
  = story_texts (line_flowables line).
Proof.
  unfold add_content_line, line_flowables, append_line.
  destruct (truthy (strip line)); [|done].
  by destruct (_ || _).
Qed.

(** X11.  [PDF.add_content] and the section loop of [create_cv_pdf]
    read lines alike: the texts [add_content] passes to [multi_cell] are,
    in order, the texts of the blocks [create_cv_pdf] makes of the same
    lines, after the calls already made on the object. *)
Theorem add_content_prints_the_block_texts pdf text :
  multi_cell_texts (add_content pdf text)
  = multi_cell_texts pdf
    ++ story_texts (flat_map line_flowables (split text [nl])).
Proof.
  assert (forall a b, multi_cell_texts (a ++ b)
                      = multi_cell_texts a ++ multi_cell_texts b) as Happ
    by (intros; apply flat_map_app).
  unfold add_content. rewrite fold_add_content_line, !Happ.
  change (multi_cell_texts [Fpdf_set_font "Arial" "" 10]) with (@nil str).
  rewrite app_nil_r. f_equal.
  induction (split text [nl]) as [|l ls IH]; [done|].
  cbn [flat_map]. rewrite Happ, IH, add_content_line_texts.
  unfold story_texts. by rewrite flat_map_app.
Qed.

(** ** The generator and the submitted form *)

Lemma build_prompt_caller name email phone experience education skills job :
  build_prompt
    (caller_user_data name email phone experience education skills) job
  = Ok (cv_prompt name email phone job experience education skills).
Proof.
  unfold build_prompt, caller_user_data, getitem.
  repeat (rewrite ?lookup_insert_eq; rewrite ?lookup_insert_ne by done;
          cbn [bind Ok]).
  reflexivity.
Qed.

Lemma generate_cv_caller generate_content
      name email phone experience education skills job :
  generate_cv generate_content
    (caller_user_data name email phone experience education skills) job
  = match generate_content
            (cv_prompt name email phone job experience education skills)
    with
    | ApiText text => text
    | ApiRaises reason => py "Error generating CV: " ++ reason
    end.
Proof. unfold generate_cv. by rewrite build_prompt_caller. Qed.

Lemma create_cv_pdf_caller doc_build
      name email phone experience education skills content page :
  create_cv_pdf doc_build
    (caller_user_data name email phone experience education skills)
    content page
  = create_cv_pdf doc_build (header_record name email phone) content page.
Proof.
  unfold create_cv_pdf, build_story, getitem, caller_user_data,
    header_record.
  repeat (rewrite ?lookup_insert_eq; rewrite ?lookup_insert_ne by done;
          cbn [bind Ok]).
  reflexivity.
Qed.

(** X12.  When a key the prompt needs is missing from [user_data],
    [generate_cv] does not consult the model: whatever the model would
    answer, it returns the text [Error generating CV: ] followed by the
    quoted name of a missing key. *)
Theorem generate_cv_missing_key (user_data : gmap string str) job key :
  In key ["name"; "email"; "phone"; "experience"; "education";
          "skills"]%string ->
  user_data !! key = None ->
  exists missing,
    user_data !! missing = None
    /\ forall generate_content,
         generate_cv generate_content user_data job
         = py "Error generating CV: " ++ py "'" ++ py missing ++ py "'".
Proof.
  intros Hin Hkey. unfold generate_cv, build_prompt, getitem.
  destruct (user_data !! "name") eqn:H1;
    [|exists "name"%string; by rewrite H1].
  destruct (user_data !! "email") eqn:H2;
    [|exists "email"%string; by rewrite H2].
  destruct (user_data !! "phone") eqn:H3;
    [|exists "phone"%string; by rewrite H3].
  destruct (user_data !! "experience") eqn:H4;
    [|exists "experience"%string; by rewrite H4].
  destruct (user_data !! "education") eqn:H5;
    [|exists "education"%string; by rewrite H5].
  destruct (user_data !! "skills") eqn:H6;
    [|exists "skills"%string; by rewrite H6].
  exfalso. simpl in Hin.
  destruct Hin as [<-|[<-|[<-|[<-|[<-|[<-|[]]]]]]]; congruence.
Qed.

Lemma generate_cv_missing_key_witness :
  In "skills"%string
     ["name"; "email"; "phone"; "experience"; "education";
      "skills"]%string
  /\ header_record (py "Jane") (py "j@x.com") (py "555") !! "skills"
     = None
  /\ exists missing,
       header_record (py "Jane") (py "j@x.com") (py "555") !! missing
       = None
       /\ forall generate_content,
            generate_cv generate_content
              (header_record (py "Jane") (py "j@x.com") (py "555"))
              (py "Engineer")
            = py "Error generating CV: " ++ py "'" ++ py missing ++ py "'".
Proof.
  assert (In "skills"%string
             ["name"; "email"; "phone"; "experience"; "education";
              "skills"]%string) as Hin by (simpl; tauto).
  assert (header_record (py "Jane") (py "j@x.com") (py "555") !! "skills"
          = None) as Hkey by (vm_compute; reflexivity).
  split; [exact Hin|]. split; [exact Hkey|].
  exact (generate_cv_missing_key _ (py "Engineer") "skills" Hin Hkey).
Defined.

(** X13.  A submission that fails offers no download.  When a field of
    the form is empty, when the generator cannot be built, or when the
    generated text begins with [Error] (as every failure text of
    [generate_cv] does), the page gets a single error message, after the
    spinner if the form was complete, and no download button. *)
Theorem failed_submission_offers_no_download
        connect doc_build lower copy_clicked
        api_key name email phone job experience education skills :
  In [] [name; email; phone; experience; education; skills; job]
  \/ (exists reason, connect api_key = inl reason)
  \/ (exists generate_content,
        connect api_key = inr generate_content
        /\ startswith
             (generate_cv generate_content
                (caller_user_data name email phone experience education
                                  skills) job)
             (py "Error") = true) ->
  (exists message,
     main_on_submit connect doc_build lower copy_clicked
                    api_key name email phone job experience education skills
     = [Ui_error message]
     \/ main_on_submit connect doc_build lower copy_clicked
                       api_key name email phone job experience education
                       skills
        = [Ui_spinner msg_spinner; Ui_error message])
  /\ downloads
       (main_on_submit connect doc_build lower copy_clicked
                       api_key name email phone job experience education
                       skills) = [].
Proof.
  intros H. unfold main_on_submit.
  destruct (forallb truthy _) eqn:Hall; cbn [negb].
  2:{ split; [|done]. exists msg_fill_fields. by left. }
  destruct H as [Hblank|[[reason Hc]|(gc & Hc & Hs)]].
  - exfalso. rewrite forallb_forall in Hall.
    by specialize (Hall [] Hblank).
  - rewrite Hc. split; [|done]. eexists. right. reflexivity.
  - rewrite Hc, Hs. split; [|done]. eexists. right. reflexivity.
Qed.

Lemma failed_submission_offers_no_download_witness :
  (In [] [py "Jane"; py "j@x.com"; []; py "ten years"; py "BSc"; py "Go";
          py "Engineer"]
   \/ (exists reason, constant_model (py "# Jane") (py "key") = inl reason)
   \/ (exists generate_content,
         constant_model (py "# Jane") (py "key") = inr generate_content
         /\ startswith
              (generate_cv generate_content
                 (caller_user_data (py "Jane") (py "j@x.com") []
                                   (py "ten years") (py "BSc") (py "Go"))
                 (py "Engineer"))
              (py "Error") = true))
  /\ downloads
       (main_on_submit (constant_model (py "# Jane")) stub_build
                       ascii_lower false (py "key")
                       (py "Jane") (py "j@x.com") [] (py "Engineer")
                       (py "ten years") (py "BSc") (py "Go")) = [].
Proof.
  assert (In [] [py "Jane"; py "j@x.com"; []; py "ten years"; py "BSc";
                 py "Go"; py "Engineer"]) as H by (simpl; tauto).
  split; [by left|].
  exact (proj2 (failed_submission_offers_no_download
                  (constant_model (py "# Jane")) stub_build ascii_lower
                  false (py "key") (py "Jane") (py "j@x.com") []
                  (py "Engineer") (py "ten years") (py "BSc") (py "Go")
                  (or_introl H))).
Defined.

(** X14.  An exception of the model reaches the page as one error
    message: with a complete form and a generator that could be built,
    when [generate_content] raises, the page holds the spinner and the
    text [Error generating CV: ] followed by the reason, nothing else. *)
Theorem api_failure_is_shown
        connect generate_content doc_build lower copy_clicked
        api_key name email phone job experience education skills reason :
  forallb truthy [name; email; phone; experience; education; skills; job]
  = true ->
  connect api_key = inr generate_content ->
  generate_content
    (cv_prompt name email phone job experience education skills)
  = ApiRaises reason ->
  main_on_submit connect doc_build lower copy_clicked
                 api_key name email phone job experience education skills
  = [ Ui_spinner msg_spinner;
      Ui_error (py "Error generating CV: " ++ reason) ].
Proof.
  intros Hall Hc Hgc. unfold main_on_submit.
  rewrite Hall, Hc, generate_cv_caller, Hgc. reflexivity.
Qed.

Lemma api_failure_is_shown_witness :
  forallb truthy [py "Jane"; py "j@x.com"; py "555"; py "ten years";
                  py "BSc"; py "Go"; py "Engineer"] = true
  /\ main_on_submit
       (fun _ => inr (fun _ => ApiRaises (py "quota exceeded")))
       stub_build ascii_lower false (py "key")
       (py "Jane") (py "j@x.com") (py "555") (py "Engineer")
       (py "ten years") (py "BSc") (py "Go")
     = [ Ui_spinner msg_spinner;
         Ui_error (py "Error generating CV: " ++ py "quota exceeded") ].
Proof.
  split; [vm_compute; reflexivity|].
  apply (api_failure_is_shown
           (fun _ => inr (fun _ => ApiRaises (py "quota exceeded")))
           (fun _ => ApiRaises (py "quota exceeded")));
    [vm_compute; reflexivity | reflexivity | reflexivity].
Defined.

Lemma downloads_app p q : downloads (p ++ q) = downloads p ++ downloads q.
Proof. apply flat_map_app. Qed.

Lemma downloads_errors errors : downloads (map Ui_error errors) = [].
Proof. by induction errors. Qed.

(** X15.  After a successful generation the Markdown download is always
    offered, with the generated text unchanged, and the PDF download is
    offered before it exactly when [create_cv_pdf] returned a non-empty
    byte string, with those bytes.  Here the form is complete, the
    generator could be built and the model's answer does not begin with
    [Error]. *)
Theorem downloads_after_generation
        connect generate_content doc_build lower copy_clicked
        api_key name email phone job experience education skills text :
  forallb truthy [name; email; phone; experience; education; skills; job]
  = true ->
  connect api_key = inr generate_content ->
  generate_content
    (cv_prompt name email phone job experience education skills)
  = ApiText text ->
  startswith text (py "Error") = false ->
  downloads
    (main_on_submit connect doc_build lower copy_clicked
                    api_key name email phone job experience education
                    skills)
  = match (create_cv_pdf doc_build (header_record name email phone)
                         text []).1 with
    | Some (b :: data) =>
        [ (PdfData (b :: data), download_name lower name (py ".pdf"),
           py "application/pdf");
          (TextData text, download_name lower name (py ".md"),
           py "text/markdown") ]
    | _ =>
        [ (TextData text, download_name lower name (py ".md"),
           py "text/markdown") ]
    end.
Proof.
  intros Hall Hc Hgc Hs. unfold main_on_submit.
  rewrite Hall, Hc, generate_cv_caller, Hgc, Hs. cbn [negb].
  rewrite create_cv_pdf_caller.
  destruct (create_cv_pdf doc_build (header_record name email phone)
                          text []) as [pdf errors].
  cbn [fst snd].
  destruct pdf as [[|b data]|]; destruct copy_clicked;
    rewrite !downloads_app, downloads_errors; reflexivity.
Qed.

Lemma downloads_after_generation_witness :
  forallb truthy [py "Jane Doe"; py "j@x.com"; py "555"; py "ten years";
                  py "BSc"; py "Go"; py "Engineer"] = true
  /\ downloads
       (main_on_submit
          (constant_model (py "## Summary" ++ nl :: py "Builds things."))
          stub_build ascii_lower true (py "key")
          (py "Jane Doe") (py "j@x.com") (py "555") (py "Engineer")
          (py "ten years") (py "BSc") (py "Go"))
     = match (create_cv_pdf stub_build
                (header_record (py "Jane Doe") (py "j@x.com") (py "555"))
                (py "## Summary" ++ nl :: py "Builds things.") []).1 with
       | Some (b :: data) =>
           [ (PdfData (b :: data),
              download_name ascii_lower (py "Jane Doe") (py ".pdf"),
              py "application/pdf");
             (TextData (py "## Summary" ++ nl :: py "Builds things."),
              download_name ascii_lower (py "Jane Doe") (py ".md"),
              py "text/markdown") ]
       | _ =>
           [ (TextData (py "## Summary" ++ nl :: py "Builds things."),
              download_name ascii_lower (py "Jane Doe") (py ".md"),
              py "text/markdown") ]
       end.
Proof.
  split; [vm_compute; reflexivity|].
  apply (downloads_after_generation
           (constant_model (py "## Summary" ++ nl :: py "Builds things."))
           (fun _ => ApiText (py "## Summary" ++ nl :: py "Builds things.")));
    [vm_compute; reflexivity | reflexivity | reflexivity
     | vm_compute; reflexivity].
Defined.

Example downloads_ex :
  downloads
    (main_on_submit
       (constant_model (py "## Summary" ++ nl :: py "Builds things."))
       stub_build ascii_lower true (py "key")
       (py "Jane Doe") (py "j@x.com") (py "555") (py "Engineer")
       (py "ten years") (py "BSc") (py "Go"))
  = [ (PdfData [Byte.x25; Byte.x50; Byte.x44; Byte.x46; Byte.x0a;
                Byte.x0a; Byte.x0a; Byte.x0a; Byte.x0a; Byte.x0a],
       py "cv_jane_doe.pdf", py "application/pdf");
      (TextData (py "## Summary" ++ nl :: py "Builds things."),
       py "cv_jane_doe.md", py "text/markdown") ].
Proof. vm_compute. reflexivity. Qed.

Lemma replace_char_gone s c d : c <> d -> ~ In c (replace s [c] [d]).
Proof.
  intros Hcd. unfold replace. induction s as [|x s IH]; [by intros []|].
  cbn [replace_go startswith length Nat.sub]. rewrite andb_true_r.
  destruct (x =? c) eqn:E.
  - simpl. intros [H|H]; [congruence | by apply IH].
  - apply N.eqb_neq in E. intros [H|H]; [congruence | by apply IH].
Qed.

Lemma download_name_no_space lower name extension :
  ~ In 32 extension -> ~ In 32 (download_name lower name extension).
Proof.
  intros Hext. unfold download_name.
  intros [H|[H|H]%in_app_or]%in_app_or.
  - vm_compute in H. intuition discriminate.
  - by apply (replace_char_gone (lower name) 32 95) in H.
  - done.
Qed.

(** X16.  No download is offered under a file name with a space in it:
    whatever [str.lower] makes of the name, every space is then replaced
    by an underscore. *)
Theorem download_names_have_no_space
        connect doc_build lower copy_clicked
        api_key name email phone job experience education skills :
  Forall (fun d : DownloadData * str * str => ~ In 32 d.1.2)
         (downloads
            (main_on_submit connect doc_build lower copy_clicked
                            api_key name email phone job experience
                            education skills)).
Proof.
  assert (~ In 32 (download_name lower name (py ".md"))) as Hmd.
  { apply download_name_no_space. vm_compute. intuition discriminate. }
  assert (~ In 32 (download_name lower name (py ".pdf"))) as Hpdf.
  { apply download_name_no_space. vm_compute. intuition discriminate. }
  unfold main_on_submit.
  destruct (forallb truthy _); cbn [negb]; [|by constructor].
  destruct (connect api_key) as [reason|gc]; [by constructor|].
  destruct (startswith _ _); [by constructor|].
  destruct (create_cv_pdf _ _ _ _) as [pdf errors]. cbn [fst snd].
  destruct pdf as [[|b data]|]; destruct copy_clicked;
    rewrite !downloads_app, downloads_errors; cbn;
    repeat constructor; done.
Qed.

(** ** Empty titles *)

(** X17.  A section is emitted even when nothing is left of its title:
    when the first line of the trimmed fragment holds only ['#'] marks
    and whitespace, the heading paragraph is there with an empty text,
    followed by the blocks of the remaining lines. *)
Theorem heading_of_marks_only_is_empty section first_line content :
  strip section = first_line ++ nl :: content ->
  ~ In nl first_line ->
  Forall (fun c => c = 35 \/ isspace c = true) first_line ->
  section_flowables section
  = Paragraph [] CustomHeading
    :: flat_map line_flowables (split (strip content) [nl])
    ++ [Spacer 1 12].
Proof.
  intros Hs Hnl Hmarks. unfold section_flowables, append_section.
  rewrite Hs, (split_once_at _ _ Hnl).
  assert (truthy (first_line ++ nl :: content) = true) as ->
    by (by destruct first_line).
  cbn [length]. case_bool_decide; [|lia].
  rewrite fold_append_line. change (py "#") with [35].
  rewrite replace_char_empty, strip_all_space; [done|].
  clear -Hmarks. induction Hmarks as [|c l Hc _ IH]; [done|].
  cbn [List.filter]. destruct (c =? 35) eqn:E; cbn [negb]; [done|].
  constructor; [|done]. destruct Hc as [->|Hc]; [done | done].
Qed.

Lemma heading_of_marks_only_is_empty_witness :
  strip (py "## " ++ nl :: py "- Go") = py "## " ++ nl :: py "- Go"
  /\ section_flowables (py "## " ++ nl :: py "- Go")
     = Paragraph [] CustomHeading
       :: flat_map line_flowables (split (strip (py "- Go")) [nl])
       ++ [Spacer 1 12].
Proof.
  split; [vm_compute; reflexivity|].
  apply (heading_of_marks_only_is_empty _ (py "## ") (py "- Go")).
  - vm_compute. reflexivity.
  - vm_compute. intuition discriminate.
  - constructor; [by left|]. constructor; [by left|].
    constructor; [by right|]. constructor.
Defined.

(** ** Whitespace around the lines of a section *)

Lemma line_flowables_strip line line' :
  strip line = strip line' -> line_flowables line = line_flowables line'.
Proof. intros H. unfold line_flowables, append_line. by rewrite H. Qed.

Lemma split_nl_cons c s :
  split (c :: s) [nl]
  = if c =? nl then [] :: split s [nl]
    else match split s [nl] with
         | h :: t => (c :: h) :: t
         | [] => [[c]]
         end.
Proof.
  unfold split. cbn [split_go may_split andb startswith length Nat.sub].
  rewrite andb_true_r. by destruct (c =? nl).
Qed.

Lemma split_nl_snoc s c :
  exists init last,
    split s [nl] = init ++ [last]
    /\ split (s ++ [c]) [nl]
       = if c =? nl then init ++ [last; []] else init ++ [last ++ [c]].
Proof.
  induction s as [|x s IH].
  - exists [], []. split; [done|]. cbn [app]. rewrite split_nl_cons.
    by destruct (c =? nl).
  - destruct IH as (init & last & E & Ec).
    change ((x :: s) ++ [c]) with (x :: s ++ [c]).
    rewrite !split_nl_cons, E, Ec.
    destruct (x =? nl).
    + exists ([] :: init), last. split; [done|]. by destruct (c =? nl).
    + destruct init as [|i0 init].
      * exists [], (x :: last). split; [done|]. by destruct (c =? nl).
      * exists ((x :: i0) :: init), last. split; [done|].
        by destruct (c =? nl).
Qed.

Lemma flat_map_lines_lstrip s :
  flat_map line_flowables (split (lstrip s) [nl])
  = flat_map line_flowables (split s [nl]).
Proof.
  induction s as [|c s IH]; [done|]. cbn [lstrip].
  destruct (isspace c) eqn:Hc; [|done].
  rewrite IH, split_nl_cons.
  destruct (c =? nl); [done|].
  destruct (split_cons [nl] None 0 s) as (h & t & E).
  unfold split in *. rewrite E. cbn [flat_map]. f_equal.
  apply line_flowables_strip. unfold strip. cbn [lstrip]. by rewrite Hc.
Qed.

Lemma strip_snoc_space l c : isspace c = true -> strip (l ++ [c]) = strip l.
Proof.
  intros Hc. unfold strip.
  destruct (lstrip l) as [|x t] eqn:E.
  - assert (lstrip (l ++ [c]) = []) as ->; [|done].
    clear -E Hc. induction l as [|y l IH]; simpl in *; [by rewrite Hc|].
    destruct (isspace y); [by apply IH | done].
  - rewrite lstrip_app_keep by (by rewrite E). rewrite E.
    unfold rstrip. rewrite rev_app_distr. cbn [rev app lstrip].
    by rewrite Hc.
Qed.

Lemma flat_map_lines_rstrip s :
  flat_map line_flowables (split (rstrip s) [nl])
  = flat_map line_flowables (split s [nl]).
Proof.
  induction s as [|c s IH] using rev_ind; [done|].
  unfold rstrip. rewrite rev_app_distr. cbn [rev app lstrip].
  destruct (isspace c) eqn:Hc.
  2:{ cbn [rev]. by rewrite rev_involutive. }
  fold (rstrip s). rewrite IH.
  destruct (split_nl_snoc s c) as (init & last & E & ->). rewrite E.
  destruct (c =? nl); rewrite !flat_map_app; f_equal; cbn [flat_map];
    rewrite ?app_nil_r; try done.
  apply line_flowables_strip. symmetry. by apply strip_snoc_space.
Qed.

(** X18.  The trimming of a section's content on line 207 changes
    nothing: whitespace and blank lines before the first and after the
    last line of the content give no block and end up in no block, so the
    blocks of the trimmed content are the blocks of the content as it
    is. *)
Theorem content_strip_is_redundant content :
  flat_map line_flowables (split (strip content) [nl])
  = flat_map line_flowables (split content [nl]).
Proof.
  unfold strip. by rewrite flat_map_lines_rstrip, flat_map_lines_lstrip.
Qed.
